(** * wa-gateway: webhook delivery subsystem

    A shallow embedding of the TypeScript sources

    - [utils/qr-store.ts]      (class [QRStore]),
    - [utils/webhook-auth.ts]  ([fetchOAuthToken], [isTokenExpired],
                                [getValidOAuthToken], [getWebhookAuthHeaders]),
    - [database/db.ts]         ([userDb.getUserByUsername],
                                [userDb.updateUserWebhookAuth]),
    - [controllers/dashboard.ts] (the [PUT /webhook-auth] handler),
    - [index.ts]               ([sendWebhookWithAuth], the [onMessageReceived]
                                handler, [sendSessionWebhook], [onConnected]),
    - [controllers/session.ts] (the [GET /:session/qr] handler),
    - [middlewares/auth.middleware.ts] ([basicAuthMiddleware]),

    followed by the properties of the delivery subsystem.

    Conventions of the embedding.
    - A JavaScript string is the [string] of its UTF-8 bytes.
    - A JavaScript number is an integer [Z]; instants are milliseconds since
      the epoch.  Fractional numbers are outside the model.
    - [string | null] is [option string]; a value that may also be
      [undefined] is [option (option string)] or a [jsval].
    - Code that awaits runs to completion: one handler is one computation of
      the monad [M]; interleavings of handlers are not modelled. *)

From Stdlib Require Import ZArith String Ascii List Bool Lia DecimalString.
From stdpp Require Import base option list gmap strings.
Import ListNotations.

Local Open Scope Z_scope.
Local Set Warnings "-register-all".

(** ** JavaScript values *)

(** The values a JSON response body can hold, plus [undefined], which is what
    reading a missing property gives. *)
Inductive jsval : Type :=
| JUndefined
| JNull
| JBool (b : bool)
| JNum (n : Z)
| JStr (s : string)
| JArr (items : list jsval)
| JObj (fields : list (string * jsval)).

(** [ToBoolean]: what [if (v)], [!v] and [v || w] test. *)
Definition truthy (v : jsval) : bool :=
  match v with
  | JUndefined | JNull => false
  | JBool b => b
  | JNum n => negb (n =? 0)
  | JStr s => negb (s =? "")%string
  | JArr _ | JObj _ => true
  end.

(** Truthiness of a [string | null] field: non-null and non-empty. *)
Definition truthy_str (o : option string) : bool :=
  match o with
  | Some s => negb (s =? "")%string
  | None => false
  end.

(** [a || b] on values. *)
Definition js_or (a b : jsval) : jsval := if truthy a then a else b.

Definition of_nullable (o : option string) : jsval :=
  match o with
  | Some s => JStr s
  | None => JNull
  end.

Fixpoint assoc (k : string) (fields : list (string * jsval)) : option jsval :=
  match fields with
  | [] => None
  | (k', v) :: rest => if (k =? k')%string then Some v else assoc k rest
  end.

(** [v.k] where [v] is known not to be [null] or [undefined].  Only objects
    carry the property names this program reads ([access_token], [token],
    [expires_in], [expiresIn], [success], [data]); on strings, numbers,
    booleans and arrays these reads give [undefined]. *)
Definition prop (v : jsval) (k : string) : jsval :=
  match v with
  | JObj fields => default JUndefined (assoc k fields)
  | _ => JUndefined
  end.

Definition nullish (v : jsval) : bool :=
  match v with
  | JUndefined | JNull => true
  | _ => false
  end.

(** [v?.k] *)
Definition opt_prop (v : jsval) (k : string) : jsval :=
  if nullish v then JUndefined else prop v k.

(** ** Strings *)

(** [hay.includes(needle)] *)
Fixpoint includes (hay needle : string) : bool :=
  String.prefix needle hay ||
  match hay with
  | EmptyString => false
  | String _ hay' => includes hay' needle
  end.

(** *** Base64, as [Buffer.from(s).toString("base64")] *)

Definition b64_alphabet : string :=
  "ABCDEFGHIJKLMNOPQRSTUVWXYZabcdefghijklmnopqrstuvwxyz0123456789+/".

Definition b64_digit (n : N) : ascii :=
  default "="%char (String.get (N.to_nat n) b64_alphabet).

Fixpoint b64_groups (bytes : list N) : string :=
  match bytes with
  | [] => ""
  | [a] =>
      String (b64_digit (a / 4))
        (String (b64_digit ((a mod 4) * 16)) "==")
  | [a; b] =>
      String (b64_digit (a / 4))
        (String (b64_digit ((a mod 4) * 16 + b / 16))
           (String (b64_digit ((b mod 16) * 4)) "="))
  | a :: b :: c :: rest =>
      String (b64_digit (a / 4))
        (String (b64_digit ((a mod 4) * 16 + b / 16))
           (String (b64_digit ((b mod 16) * 4 + c / 64))
              (String (b64_digit (c mod 64)) (b64_groups rest))))
  end%N.

Definition base64 (s : string) : string :=
  b64_groups (map N_of_ascii (list_ascii_of_string s)).

(** ** The QR code store ([utils/qr-store.ts]) *)

Module QRStore.

Record entry : Type := { qr : string; timestamp : Z }.

(** [private readonly TTL = 5 * 60 * 1000] *)
Definition TTL : Z := 5 * 60 * 1000.

(** [storeQR]; [now] is the value of [Date.now()]. *)
Definition storeQR (now : Z) (sessionName code : string)
    (qrCodes : gmap string entry) : gmap string entry :=
  <[sessionName := {| qr := code; timestamp := now |}]> qrCodes.

(** [getQR]: the returned value and the map after the call. *)
Definition getQR (now : Z) (sessionName : string)
    (qrCodes : gmap string entry) : option string * gmap string entry :=
  match qrCodes !! sessionName with
  | None => (None, qrCodes)
  | Some stored =>
      if now - timestamp stored >? TTL
      then (None, delete sessionName qrCodes)
      else (Some (qr stored), qrCodes)
  end.

Definition removeQR (sessionName : string)
    (qrCodes : gmap string entry) : gmap string entry :=
  delete sessionName qrCodes.

Definition clearExpired (now : Z)
    (qrCodes : gmap string entry) : gmap string entry :=
  filter (fun kv => negb (now - timestamp kv.2 >? TTL) = true) qrCodes.

End QRStore.

(** ** Data model *)

(** A row of the [users] table ([interface User]).  The expiration column
    only ever holds [null] or a string written by [Date.toISOString]; such a
    string is represented by the instant it denotes, which is what
    [new Date(s).getTime()] gives back. *)
Record User : Type := {
  id : Z;
  username : string;
  password : string;
  is_admin : Z;
  session_name : option string;
  callback_url : option string;
  webhook_auth_type : option string;
  webhook_auth_username : option string;
  webhook_auth_password : option string;
  webhook_auth_token_url : option string;
  webhook_auth_token : option string;
  webhook_auth_token_expiration : option Z;
  webhook_oauth_format : option string;
  created_at : string
}.

(** The [authConfig] argument of [updateUserWebhookAuth].  Every key is
    optional: [None] is [undefined], [Some None] is [null].  The token is a
    [jsval] because [getValidOAuthToken] passes a value taken from a response
    body; there [JUndefined] is the missing key. *)
Record AuthConfig : Type := {
  cfg_webhook_auth_type : option (option string);
  cfg_webhook_auth_username : option (option string);
  cfg_webhook_auth_password : option (option string);
  cfg_webhook_auth_token_url : option (option string);
  cfg_webhook_auth_token : jsval;
  cfg_webhook_auth_token_expiration : option (option Z);
  cfg_webhook_oauth_format : option (option string)
}.

Definition empty_config : AuthConfig :=
  {| cfg_webhook_auth_type := None;
     cfg_webhook_auth_username := None;
     cfg_webhook_auth_password := None;
     cfg_webhook_auth_token_url := None;
     cfg_webhook_auth_token := JUndefined;
     cfg_webhook_auth_token_expiration := None;
     cfg_webhook_oauth_format := None |}.

(** Assignments [updates.k = v]. *)
Definition set_cfg_type (c : AuthConfig) (v : option string) : AuthConfig :=
  {| cfg_webhook_auth_type := Some v;
     cfg_webhook_auth_username := cfg_webhook_auth_username c;
     cfg_webhook_auth_password := cfg_webhook_auth_password c;
     cfg_webhook_auth_token_url := cfg_webhook_auth_token_url c;
     cfg_webhook_auth_token := cfg_webhook_auth_token c;
     cfg_webhook_auth_token_expiration := cfg_webhook_auth_token_expiration c;
     cfg_webhook_oauth_format := cfg_webhook_oauth_format c |}.

Definition set_cfg_username (c : AuthConfig) (v : option string) : AuthConfig :=
  {| cfg_webhook_auth_type := cfg_webhook_auth_type c;
     cfg_webhook_auth_username := Some v;
     cfg_webhook_auth_password := cfg_webhook_auth_password c;
     cfg_webhook_auth_token_url := cfg_webhook_auth_token_url c;
     cfg_webhook_auth_token := cfg_webhook_auth_token c;
     cfg_webhook_auth_token_expiration := cfg_webhook_auth_token_expiration c;
     cfg_webhook_oauth_format := cfg_webhook_oauth_format c |}.

Definition set_cfg_password (c : AuthConfig) (v : option string) : AuthConfig :=
  {| cfg_webhook_auth_type := cfg_webhook_auth_type c;
     cfg_webhook_auth_username := cfg_webhook_auth_username c;
     cfg_webhook_auth_password := Some v;
     cfg_webhook_auth_token_url := cfg_webhook_auth_token_url c;
     cfg_webhook_auth_token := cfg_webhook_auth_token c;
     cfg_webhook_auth_token_expiration := cfg_webhook_auth_token_expiration c;
     cfg_webhook_oauth_format := cfg_webhook_oauth_format c |}.

Definition set_cfg_token_url (c : AuthConfig) (v : option string) : AuthConfig :=
  {| cfg_webhook_auth_type := cfg_webhook_auth_type c;
     cfg_webhook_auth_username := cfg_webhook_auth_username c;
     cfg_webhook_auth_password := cfg_webhook_auth_password c;
     cfg_webhook_auth_token_url := Some v;
     cfg_webhook_auth_token := cfg_webhook_auth_token c;
     cfg_webhook_auth_token_expiration := cfg_webhook_auth_token_expiration c;
     cfg_webhook_oauth_format := cfg_webhook_oauth_format c |}.

Definition set_cfg_token (c : AuthConfig) (v : jsval) : AuthConfig :=
  {| cfg_webhook_auth_type := cfg_webhook_auth_type c;
     cfg_webhook_auth_username := cfg_webhook_auth_username c;
     cfg_webhook_auth_password := cfg_webhook_auth_password c;
     cfg_webhook_auth_token_url := cfg_webhook_auth_token_url c;
     cfg_webhook_auth_token := v;
     cfg_webhook_auth_token_expiration := cfg_webhook_auth_token_expiration c;
     cfg_webhook_oauth_format := cfg_webhook_oauth_format c |}.

Definition set_cfg_token_expiration (c : AuthConfig) (v : option Z)
    : AuthConfig :=
  {| cfg_webhook_auth_type := cfg_webhook_auth_type c;
     cfg_webhook_auth_username := cfg_webhook_auth_username c;
     cfg_webhook_auth_password := cfg_webhook_auth_password c;
     cfg_webhook_auth_token_url := cfg_webhook_auth_token_url c;
     cfg_webhook_auth_token := cfg_webhook_auth_token c;
     cfg_webhook_auth_token_expiration := Some v;
     cfg_webhook_oauth_format := cfg_webhook_oauth_format c |}.

Definition set_cfg_format (c : AuthConfig) (v : option string) : AuthConfig :=
  {| cfg_webhook_auth_type := cfg_webhook_auth_type c;
     cfg_webhook_auth_username := cfg_webhook_auth_username c;
     cfg_webhook_auth_password := cfg_webhook_auth_password c;
     cfg_webhook_auth_token_url := cfg_webhook_auth_token_url c;
     cfg_webhook_auth_token := cfg_webhook_auth_token c;
     cfg_webhook_auth_token_expiration := cfg_webhook_auth_token_expiration c;
     cfg_webhook_oauth_format := Some v |}.

(** The validated body of [PUT /webhook-auth]. *)

(** [z.enum(["none", "basic", "oauth", "bearer"])] *)
Inductive WebhookAuthType : Type := AuthNone | AuthBasic | AuthOAuth | AuthBearer.

Definition auth_type_string (t : WebhookAuthType) : string :=
  match t with
  | AuthNone => "none"
  | AuthBasic => "basic"
  | AuthOAuth => "oauth"
  | AuthBearer => "bearer"
  end.

(** [z.enum(["oauth2", "json"])] *)
Inductive OAuthFormat : Type := FormatOAuth2 | FormatJson.

Definition format_string (f : OAuthFormat) : string :=
  match f with
  | FormatOAuth2 => "oauth2"
  | FormatJson => "json"
  end.

(** A request body accepted by [updateWebhookAuthSchema]. *)
Record WebhookAuthPayload : Type := {
  p_webhook_auth_type : WebhookAuthType;
  p_webhook_auth_username : option (option string);
  p_webhook_auth_password : option (option string);
  p_webhook_auth_token_url : option (option string);
  p_webhook_auth_token : option (option string);
  p_webhook_oauth_format : option (option OAuthFormat)
}.

(** An outbound [axios.post(url, body, { headers })]. *)
Inductive body : Type :=
| BodyJson (json : jsval)
| BodyForm (params : list (string * string)).

Record request : Type := {
  req_url : string;
  req_body : body;
  req_headers : list (string * string)
}.

(** What the network answers to a POST. *)
Inductive outcome : Type :=
| NetworkError (message : string)
| Response (status : Z) (data : jsval).

(** The [MessageReceived] event of the protocol library, reduced to what the
    handler reads.  [message.message?.imageMessage?.caption] and the like are
    flattened: a field is [None] when any link of the chain is missing. *)
Record MessageKey : Type := {
  fromMe : bool;
  remoteJid : option string;
  key_id : jsval
}.

Record MessageContent : Type := {
  conversation : option string;
  extendedTextMessage_text : option string;
  imageMessage_caption : option string;
  videoMessage_caption : option string;
  documentMessage_caption : option string;
  contactMessage_displayName : option string;
  locationMessage_comment : option string;
  liveLocationMessage_caption : option string
}.

Record MessageReceived : Type := {
  sessionId : string;
  key : MessageKey;
  message : option MessageContent
}.

Inductive SessionStatus : Type := connected | connecting | disconnected.

Definition status_string (s : SessionStatus) : string :=
  match s with
  | connected => "connected"
  | connecting => "connecting"
  | disconnected => "disconnected"
  end.

(** ** Exceptions and the effect monad *)

Inductive error_message : Type :=
| UnexpectedTokenResponseFormat (data : jsval)
| FailedToFetchOAuthToken (errorDetails : jsval + string).

Inductive exn : Type :=
| TypeError
| RangeError
| AxiosError (response_data : option jsval) (message : string)
| Error (msg : error_message)
| HTTPException (status : Z) (message : string).

Definition isAxiosError (e : exn) : bool :=
  match e with
  | AxiosError _ _ => true
  | _ => false
  end.

Inductive Result (A : Type) : Type :=
| Ok (a : A)
| Throw (e : exn).
Arguments Ok {A} a.
Arguments Throw {A} e.

(** The process state a handler can touch: the [users] table, the clock read
    by [Date.now()], the POSTs issued so far (oldest first), the QR store and
    the calls made to the message store. *)
Record World : Type := {
  db : list User;
  clock : Z;
  posts : list request;
  qrCodes : gmap string QRStore.entry;
  messageStore : list MessageReceived
}.

Definition M (A : Type) : Type := World -> Result A * World.

Definition ret {A} (a : A) : M A := fun w => (Ok a, w).

Definition throw {A} (e : exn) : M A := fun w => (Throw e, w).

Definition bind {A B} (m : M A) (k : A -> M B) : M B :=
  fun w =>
    match m w with
    | (Ok a, w') => k a w'
    | (Throw e, w') => (Throw e, w')
    end.

(** [try { m } catch (e) { h e }] *)
Definition try_catch {A} (m : M A) (h : exn -> M A) : M A :=
  fun w =>
    match m w with
    | (Ok a, w') => (Ok a, w')
    | (Throw e, w') => h e w'
    end.

Notation "x <- m ;; k" := (bind m (fun x => k))
  (at level 100, m at next level, right associativity).
Notation "m ;;; k" := (bind m (fun _ => k))
  (at level 100, right associativity).

Definition Date_now : M Z := fun w => (Ok (clock w), w).

Definition set_db (f : list User -> list User) : M unit :=
  fun w =>
    (Ok tt,
     {| db := f (db w); clock := clock w; posts := posts w;
        qrCodes := qrCodes w; messageStore := messageStore w |}).

Definition set_qrCodes
    (f : gmap string QRStore.entry -> gmap string QRStore.entry) : M unit :=
  fun w =>
    (Ok tt,
     {| db := db w; clock := clock w; posts := posts w;
        qrCodes := f (qrCodes w); messageStore := messageStore w |}).

(** [messageStore.storeMessage(message)]: the module is not part of the
    sources at hand; the call is recorded. *)
Definition storeMessage (m : MessageReceived) : M unit :=
  fun w =>
    (Ok tt,
     {| db := db w; clock := clock w; posts := posts w;
        qrCodes := qrCodes w; messageStore := messageStore w ++ [m] |}).

(** The world once request [r] has been sent and answered. *)
Definition after_post (w : World) (r : request) (elapsed : Z) : World :=
  {| db := db w; clock := clock w + elapsed; posts := posts w ++ [r];
     qrCodes := qrCodes w; messageStore := messageStore w |}.

(** What the JavaScript runtime and the libraries supply: the network behind
    [axios.post] (its answer may depend on everything sent before, and takes
    some time), and the coercions applied to response values that are not of
    the type the program declares for them. *)
Record Runtime : Type := {
  net : list request -> request -> outcome * Z;
  (** [ToNumber] on a value that is not a number; [None] is [NaN]. *)
  ToNumber_other : jsval -> option Z;
  (** [ToString] on a value that is not a string. *)
  ToString_other : jsval -> string;
  (** the SQLite driver binding a value that is neither a string nor
      [null]; [None] is its [TypeError]. *)
  bind_other : jsval -> option (option string)
}.

(** [v !== undefined] on an optional key. *)
Definition defined {A} (o : option A) : bool :=
  match o with
  | Some _ => true
  | None => false
  end.

(** ** The program *)

Section Gateway.

Variable rt : Runtime.

(** [env.WEBHOOK_BASE_URL] *)
Variable WEBHOOK_BASE_URL : option string.

(** [await axios.post(...)]: the request is issued, time passes, and axios
    throws unless the status satisfies its default [validateStatus]
    (200 to 299).  The value returned is [response.data]. *)
Definition axios_post (r : request) : M jsval :=
  fun w =>
    let '(o, elapsed) := net rt (posts w) r in
    let w' := after_post w r elapsed in
    match o with
    | NetworkError m => (Throw (AxiosError None m), w')
    | Response st d =>
        if (200 <=? st) && (st <? 300)
        then (Ok d, w')
        else (Throw (AxiosError (Some d)
                       ("Request failed with status code "
                        +:+ NilZero.string_of_int (Z.to_int st))), w')
    end.

(** *** [database/db.ts] *)

Definition getUserByUsername (name : string) : M (option User) :=
  fun w => (Ok (find (fun u => (username u =? name)%string) (db w)), w).

(** A bound statement parameter. *)
Definition sqlite_bind (v : jsval) : M (option string) :=
  match v with
  | JNull => ret None
  | JStr s => ret (Some s)
  | _ =>
      match bind_other rt v with
      | Some x => ret x
      | None => throw TypeError
      end
  end.

(** [updates.length > 0] *)
Definition has_updates (c : AuthConfig) : bool :=
  defined (cfg_webhook_auth_type c)
  || defined (cfg_webhook_auth_username c)
  || defined (cfg_webhook_auth_password c)
  || defined (cfg_webhook_auth_token_url c)
  || negb (match cfg_webhook_auth_token c with JUndefined => true | _ => false end)
  || defined (cfg_webhook_auth_token_expiration c)
  || defined (cfg_webhook_oauth_format c).

(** The [SET] clause applied to one row; [tok] is the bound token, when the
    key is defined. *)
Definition apply_updates (c : AuthConfig) (tok : option (option string))
    (u : User) : User :=
  {| id := id u;
     username := username u;
     password := password u;
     is_admin := is_admin u;
     session_name := session_name u;
     callback_url := callback_url u;
     webhook_auth_type :=
       default (webhook_auth_type u) (cfg_webhook_auth_type c);
     webhook_auth_username :=
       default (webhook_auth_username u) (cfg_webhook_auth_username c);
     webhook_auth_password :=
       default (webhook_auth_password u) (cfg_webhook_auth_password c);
     webhook_auth_token_url :=
       default (webhook_auth_token_url u) (cfg_webhook_auth_token_url c);
     webhook_auth_token := default (webhook_auth_token u) tok;
     webhook_auth_token_expiration :=
       default (webhook_auth_token_expiration u)
               (cfg_webhook_auth_token_expiration c);
     webhook_oauth_format :=
       default (webhook_oauth_format u) (cfg_webhook_oauth_format c);
     created_at := created_at u |}.

(** [UPDATE users SET ... WHERE id = ?] *)
Definition update_where_id (userId : Z) (c : AuthConfig)
    (tok : option (option string)) (rows : list User) : list User :=
  map (fun u => if id u =? userId then apply_updates c tok u else u) rows.

Definition updateUserWebhookAuth (userId : Z) (authConfig : AuthConfig)
    : M unit :=
  if has_updates authConfig then
    tok <- match cfg_webhook_auth_token authConfig with
           | JUndefined => ret None
           | v => (b <- sqlite_bind v ;; ret (Some b))
           end ;;
    set_db (update_where_id userId authConfig tok)
  else ret tt.

(** *** [utils/webhook-auth.ts] *)

(** The request [fetchOAuthToken] sends, in either format. *)
Definition token_request (username password tokenUrl format : string)
    : request :=
  if (format =? "json")%string then
    {| req_url := tokenUrl;
       req_body :=
         BodyJson (JObj [("username", JStr username);
                         ("password", JStr password)]%string);
       req_headers := [("Content-Type", "application/json")]%string |}
  else
    {| req_url := tokenUrl;
       req_body :=
         BodyForm [("grant_type", "client_credentials");
                   ("client_id", username);
                   ("client_secret", password)]%string;
       req_headers :=
         [("Content-Type", "application/x-www-form-urlencoded")]%string |}.

(** [data.k] on a response body: a [TypeError] on [null]. *)
Definition read (data : jsval) (k : string) : M jsval :=
  if nullish data then throw TypeError else ret (prop data k).

(** The value returned is the response object: the body itself in the
    standard case, a fresh object otherwise. *)
Definition fetchOAuthToken (username password tokenUrl format : string)
    : M jsval :=
  try_catch
    (data <- axios_post (token_request username password tokenUrl format) ;;
     access_token <- read data "access_token" ;;
     if truthy access_token then ret data
     else if truthy (prop data "token") then
       ret (JObj [("access_token", prop data "token");
                  ("expires_in",
                   js_or (prop data "expires_in") (prop data "expiresIn"))
                 ]%string)
     else if truthy (prop data "success")
             && truthy (opt_prop (prop data "data") "token") then
       ret (JObj [("access_token", prop (prop data "data") "token");
                  ("expires_in",
                   js_or (prop (prop data "data") "expires_in")
                         (prop (prop data "data") "expiresIn"))
                 ]%string)
     else throw (Error (UnexpectedTokenResponseFormat data)))
    (fun error =>
       match error with
       | AxiosError response_data message =>
           let errorDetails :=
             match response_data with
             | Some d => if truthy d then inl d else inr message
             | None => inr message
             end in
           throw (Error (FailedToFetchOAuthToken errorDetails))
       | _ => throw error
       end).

(** [5 * 60 * 1000], the buffer of [isTokenExpired]. *)
Definition bufferTime : Z := 5 * 60 * 1000.

Definition isTokenExpired (expirationTime : option Z) : M bool :=
  match expirationTime with
  | None => ret true
  | Some expiration =>
      now <- Date_now ;;
      ret (expiration - now <? bufferTime)
  end.

Definition ToNumber (v : jsval) : option Z :=
  match v with
  | JNum n => Some n
  | _ => ToNumber_other rt v
  end.

Definition ToString (v : jsval) : string :=
  match v with
  | JStr s => s
  | _ => ToString_other rt v
  end.

(** The largest time value of a [Date]. *)
Definition MAX_TIME : Z := 8640000000000000.

(** [new Date(t).toISOString()]: a [RangeError] on an invalid date. *)
Definition toISOString (t : option Z) : M Z :=
  match t with
  | Some t => if Z.abs t <=? MAX_TIME then ret t else throw RangeError
  | None => throw RangeError
  end.

(** The token, or [JNull]. *)
Definition getValidOAuthToken (user : User) : M jsval :=
  if negb (truthy_str (webhook_auth_username user))
     || negb (truthy_str (webhook_auth_password user))
     || negb (truthy_str (webhook_auth_token_url user))
  then ret JNull
  else
    renew <- (if negb (truthy_str (webhook_auth_token user)) then ret true
              else isTokenExpired (webhook_auth_token_expiration user)) ;;
    if renew : bool then
      try_catch
        (let format :=
           if truthy_str (webhook_oauth_format user)
           then default "oauth2"%string (webhook_oauth_format user)
           else "oauth2"%string in
         tokenResponse <-
           fetchOAuthToken
             (default ""%string (webhook_auth_username user))
             (default ""%string (webhook_auth_password user))
             (default ""%string (webhook_auth_token_url user))
             format ;;
         let expiresIn := js_or (prop tokenResponse "expires_in") (JNum 3600) in
         now <- Date_now ;;
         expirationTime <-
           toISOString ((fun n => now + n * 1000) <$> ToNumber expiresIn) ;;
         updateUserWebhookAuth (id user)
           (set_cfg_token_expiration
              (set_cfg_token empty_config (prop tokenResponse "access_token"))
              (Some expirationTime)) ;;;
         ret (prop tokenResponse "access_token"))
        (fun _ => ret JNull)
    else ret (of_nullable (webhook_auth_token user)).

Definition getWebhookAuthHeaders (user : option User)
    : M (list (string * string)) :=
  match user with
  | None => ret []
  | Some user =>
      if negb (truthy_str (webhook_auth_type user))
         || (default "" (webhook_auth_type user) =? "none")%string
      then ret []
      else
        let authType := default ""%string (webhook_auth_type user) in
        if (authType =? "basic")%string then
          if truthy_str (webhook_auth_username user)
             && truthy_str (webhook_auth_password user)
          then
            let credentials :=
              base64 (default "" (webhook_auth_username user)
                      +:+ ":" +:+ default "" (webhook_auth_password user)) in
            ret [("Authorization", "Basic " +:+ credentials)]%string
          else ret []
        else if (authType =? "bearer")%string then
          if truthy_str (webhook_auth_token user)
          then ret [("Authorization",
                     "Bearer " +:+ default "" (webhook_auth_token user))
                   ]%string
          else ret []
        else if (authType =? "oauth")%string then
          token <- getValidOAuthToken user ;;
          if truthy token
          then ret [("Authorization", "Bearer " +:+ ToString token)]%string
          else ret []
        else ret []
  end.

(** *** [controllers/dashboard.ts]: [PUT /webhook-auth] *)

(** The [updates] object the handler builds, assignment by assignment. *)
Definition webhook_auth_updates (payload : WebhookAuthPayload) : AuthConfig :=
  let updates :=
    set_cfg_type empty_config
      (Some (auth_type_string (p_webhook_auth_type payload))) in
  let updates := set_cfg_token updates JNull in
  let updates := set_cfg_token_expiration updates None in
  let updates :=
    match p_webhook_auth_username payload with
    | Some v => set_cfg_username updates v
    | None => updates
    end in
  let updates :=
    match p_webhook_auth_password payload with
    | Some v => set_cfg_password updates v
    | None => updates
    end in
  let updates :=
    match p_webhook_auth_token_url payload with
    | Some v => set_cfg_token_url updates v
    | None => updates
    end in
  let updates :=
    match p_webhook_auth_token payload with
    | Some v => set_cfg_token updates (of_nullable v)
    | None => updates
    end in
  let updates :=
    match p_webhook_oauth_format payload with
    | Some v => set_cfg_format updates (format_string <$> v)
    | None => updates
    end in
  updates.

(** The handler, for the authenticated [user] and a validated payload. *)
Definition put_webhook_auth (user : User) (payload : WebhookAuthPayload)
    : M unit :=
  if is_admin user =? 1 then
    throw (HTTPException 400
             "Admin users cannot configure webhook authentication")
  else
    updateUserWebhookAuth (id user) (webhook_auth_updates payload).

(** *** [index.ts]: the dispatcher *)

Definition getUserForSession (sessionName : string) : M (option User) :=
  getUserByUsername sessionName.

Fixpoint set_key (k v : string) (o : list (string * string))
    : list (string * string) :=
  match o with
  | [] => [(k, v)]
  | (k', v') :: rest =>
      if (k =? k')%string then (k, v) :: rest else (k', v') :: set_key k v rest
  end.

(** [Object.assign(target, source)] *)
Definition Object_assign (target source : list (string * string))
    : list (string * string) :=
  fold_left (fun acc kv => set_key kv.1 kv.2 acc) source target.

Definition sendWebhookWithAuth (url : string) (body : jsval)
    (user : option User) : M unit :=
  try_catch
    (let headers := [("Content-Type", "application/json")]%string in
     authHeaders <- getWebhookAuthHeaders user ;;
     let headers := Object_assign headers authHeaders in
     axios_post {| req_url := url; req_body := BodyJson body;
                   req_headers := headers |} ;;;
     ret tt)
    (fun _ => ret tt).

(** [a || b || ... || null] over [string | null | undefined] operands. *)
Fixpoint first_truthy (l : list (option string)) : jsval :=
  match l with
  | [] => JNull
  | o :: rest => if truthy_str o then of_nullable o else first_truthy rest
  end.

Definition message_text (m : option MessageContent) : jsval :=
  match m with
  | None => JNull
  | Some c =>
      first_truthy
        [conversation c; extendedTextMessage_text c; imageMessage_caption c;
         videoMessage_caption c; documentMessage_caption c;
         contactMessage_displayName c; locationMessage_comment c;
         liveLocationMessage_caption c]
  end.

Definition message_body (m : MessageReceived) : jsval :=
  JObj [("session", JStr (sessionId m));
        ("from", of_nullable (remoteJid (key m)));
        ("messageId", key_id (key m));
        ("message", message_text (message m));
        ("media", JObj [("image", JNull); ("video", JNull);
                        ("document", JNull); ("audio", JNull)])]%string.

(** The callback registered with [onMessageReceived]. *)
Definition onMessageReceived (m : MessageReceived) : M unit :=
  storeMessage m ;;;
  if fromMe (key m)
     || match remoteJid (key m) with
        | Some jid => includes jid "broadcast"
        | None => false
        end
  then ret tt
  else
    user <- getUserForSession (sessionId m) ;;
    let callbackUrl := user ≫= callback_url in
    if negb (truthy_str callbackUrl) then ret tt
    else
      let endpoint := default ""%string callbackUrl in
      let body := message_body m in
      sendWebhookWithAuth endpoint body user ;;;
      if truthy_str WEBHOOK_BASE_URL
      then sendWebhookWithAuth (default ""%string WEBHOOK_BASE_URL) body None
      else ret tt.

Definition session_body (sessionName : string) (status : SessionStatus)
    : jsval :=
  JObj [("session", JStr sessionName);
        ("status", JStr (status_string status))]%string.

Definition sendSessionWebhook (sessionName : string)
    (status : SessionStatus) : M unit :=
  user <- getUserForSession sessionName ;;
  let callbackUrl := user ≫= callback_url in
  if negb (truthy_str callbackUrl) then ret tt
  else
    let endpoint := (default "" callbackUrl +:+ "/session")%string in
    let body := session_body sessionName status in
    sendWebhookWithAuth endpoint body user ;;;
    if truthy_str WEBHOOK_BASE_URL
    then sendWebhookWithAuth
           (default "" WEBHOOK_BASE_URL +:+ "/session")%string body None
    else ret tt.

Definition onConnected (session : string) : M unit :=
  set_qrCodes (QRStore.removeQR session) ;;;
  sendSessionWebhook session connected.

Definition onConnecting (session : string) : M unit :=
  sendSessionWebhook session connecting.

Definition onDisconnected (session : string) : M unit :=
  sendSessionWebhook session disconnected.

End Gateway.

(** ** The rest of the program *)

(** *** [database/db.ts]: the other statements *)

(** [SELECT * FROM users WHERE id = ?] *)
Definition getUserById (userId : Z) : M (option User) :=
  fun w => (Ok (find (fun u => id u =? userId) (db w)), w).

(** [SELECT * FROM users] *)
Definition getAllUsers : M (list User) :=
  fun w => (Ok (db w), w).

(** Row [u] with another callback URL. *)
Definition set_callback_url (u : User) (callbackUrl : option string) : User :=
  {| id := id u; username := username u; password := password u;
     is_admin := is_admin u; session_name := session_name u;
     callback_url := callbackUrl;
     webhook_auth_type := webhook_auth_type u;
     webhook_auth_username := webhook_auth_username u;
     webhook_auth_password := webhook_auth_password u;
     webhook_auth_token_url := webhook_auth_token_url u;
     webhook_auth_token := webhook_auth_token u;
     webhook_auth_token_expiration := webhook_auth_token_expiration u;
     webhook_oauth_format := webhook_oauth_format u;
     created_at := created_at u |}.

(** [UPDATE users SET callback_url = ? WHERE id = ?] *)
Definition updateUserCallbackUrl (userId : Z) (callbackUrl : option string)
    : M unit :=
  set_db (map (fun u => if id u =? userId
                        then set_callback_url u callbackUrl else u)).

(** [DELETE FROM users WHERE id = ?] *)
Definition deleteUser (userId : Z) : M unit :=
  set_db (List.filter (fun u => negb (id u =? userId))).

(** *** [controllers/dashboard.ts]: [PUT /callback] *)

(** The handler, for the authenticated [user] and the validated
    [payload.callback_url] (a URL or [null]). *)
Definition put_callback (user : User) (callback : option string) : M unit :=
  if is_admin user =? 1 then
    throw (HTTPException 400 "Admin users cannot configure callbacks")
  else
    updateUserCallbackUrl (id user) callback.

(** *** The QR store as the process holds it *)

(** [qrStore.storeQR(sessionName, qr)] *)
Definition qrStore_storeQR (sessionName code : string) : M unit :=
  now <- Date_now ;;
  set_qrCodes (QRStore.storeQR now sessionName code).

(** [qrStore.getQR(sessionName)] *)
Definition qrStore_getQR (sessionName : string) : M (option string) :=
  fun w =>
    let '(r, m) := QRStore.getQR (clock w) sessionName (qrCodes w) in
    (Ok r,
     {| db := db w; clock := clock w; posts := posts w;
        qrCodes := m; messageStore := messageStore w |}).

(** [qrStore.removeQR(sessionName)] *)
Definition qrStore_removeQR (sessionName : string) : M unit :=
  set_qrCodes (QRStore.removeQR sessionName).

(** [qrStore.clearExpired()] *)
Definition qrStore_clearExpired : M unit :=
  now <- Date_now ;;
  set_qrCodes (QRStore.clearExpired now).

(** *** [controllers/session.ts]: [GET /:session/qr] *)

Section Session.

(** Whether [whatsapp.getSession(name)?.user] is set, and the [toDataURL] of
    the [qrcode] package, which may reject. *)
Variable session_user : string -> bool.
Variable toDataURL : string -> Result string.

Definition get_session_qr (user : User) (sessionName : string) : M jsval :=
  if negb (is_admin user =? 1) && negb (sessionName =? username user)%string
  then throw (HTTPException 403 "You can only access your own session")
  else
    code <- qrStore_getQR sessionName ;;
    if negb (truthy_str code) then
      if session_user sessionName
      then throw (HTTPException 400 "Session is already connected")
      else throw (HTTPException 404
                    "QR code not found. Session may not be in the process of connecting.")
    else
      match toDataURL (default ""%string code) with
      | Throw e => throw e
      | Ok qrDataUrl =>
          ret (JObj [("data", JObj [("qr", JStr qrDataUrl);
                                    ("session", JStr sessionName)])]%string)
      end.

End Session.

(** *** [middlewares/auth.middleware.ts]: [basicAuthMiddleware] *)

(** [s.split(sep)] for a one-character separator. *)
Fixpoint split_on (sep : ascii) (s : string) : list string :=
  match s with
  | EmptyString => [EmptyString]
  | String c s' =>
      if Ascii.eqb c sep then EmptyString :: split_on sep s'
      else match split_on sep s' with
           | x :: rest => String c x :: rest
           | [] => [String c EmptyString]
           end
  end.

Section Auth.

(** [env.ADMIN_USER], [env.ADMIN_PASSWORD]; [bcrypt.compareSync];
    [Buffer.from(s, "base64").toString("ascii")]; and the text
    [toISOString] gives for an instant. *)
Variable ADMIN_USER ADMIN_PASSWORD : string.
Variable compareSync : string -> string -> bool.
Variable decode_base64_ascii : string -> string.
Variable iso_text : Z -> string.

(** [userDb.verifyPassword] *)
Definition verifyPassword (password hashedPassword : string) : bool :=
  compareSync password hashedPassword.

(** The user the middleware puts in the context before calling [next()], or
    the [HTTPException] it throws; [name] and [pass] are the [username] and
    [password] of the destructured credentials.  The [WWW-Authenticate]
    response header set before each 401 is not part of the model. *)
Definition basicAuthMiddleware (authHeader : option string) : M User :=
  if negb (truthy_str authHeader)
     || negb (String.prefix "Basic " (default ""%string authHeader))
  then throw (HTTPException 401 "Unauthorized")
  else
    let base64Credentials :=
      nth_error (split_on " " (default ""%string authHeader)) 1 in
    if negb (truthy_str base64Credentials)
    then throw (HTTPException 401 "Unauthorized")
    else
      let credentials :=
        decode_base64_ascii (default ""%string base64Credentials) in
      let parts := split_on ":" credentials in
      let name := nth_error parts 0 in
      let pass := nth_error parts 1 in
      if negb (truthy_str name) || negb (truthy_str pass)
      then throw (HTTPException 401 "Invalid credentials")
      else
        let name := default ""%string name in
        let pass := default ""%string pass in
        if (name =? ADMIN_USER)%string then
          if negb (pass =? ADMIN_PASSWORD)%string
          then throw (HTTPException 401 "Invalid credentials")
          else
            now <- Date_now ;;
            ret {| id := -1; username := ADMIN_USER; password := "";
                   is_admin := 1; session_name := None; callback_url := None;
                   webhook_auth_type := None;
                   webhook_auth_username := None;
                   webhook_auth_password := None;
                   webhook_auth_token_url := None;
                   webhook_auth_token := None;
                   webhook_auth_token_expiration := None;
                   webhook_oauth_format := None;
                   created_at := iso_text now |}
        else
          user <- getUserByUsername name ;;
          match user with
          | None => throw (HTTPException 401 "Invalid credentials")
          | Some user =>
              if negb (verifyPassword pass (password user))
              then throw (HTTPException 401 "Invalid credentials")
              else ret user
          end.

End Auth.

(** ** Vocabulary of the properties *)

(** A field is present when it holds a non-empty string: this is what the
    program's [if (user.field)] tests accept. *)
Definition present (o : option string) : Prop :=
  exists s, o = Some s /\ s <> ""%string.

(** A response body has field [k] when [data.k] is truthy, which is how the
    parser of [fetchOAuthToken] looks for it. *)
Definition has_field (data : jsval) (k : string) : Prop :=
  truthy (prop data k) = true.

(** The world with another table. *)
Definition with_db (w : World) (rows : list User) : World :=
  {| db := rows; clock := clock w; posts := posts w;
     qrCodes := qrCodes w; messageStore := messageStore w |}.

(** The three prerequisites of the OAuth scheme. *)
Definition oauth_configured (u : User) : Prop :=
  present (webhook_auth_username u)
  /\ present (webhook_auth_password u)
  /\ present (webhook_auth_token_url u).

(** The cache holds a token whose expiration, less the five-minute buffer,
    has not been passed at instant [now]. *)
Definition cache_fresh (u : User) (now : Z) : Prop :=
  present (webhook_auth_token u)
  /\ exists e, webhook_auth_token_expiration u = Some e /\ now <= e - 300000.

(** [user.webhook_oauth_format || 'oauth2'] *)
Definition oauth_format (u : User) : string :=
  if truthy_str (webhook_oauth_format u)
  then default "oauth2"%string (webhook_oauth_format u)
  else "oauth2"%string.

(** The token request made on behalf of tenant [u]. *)
Definition token_request_of (u : User) : request :=
  token_request
    (default ""%string (webhook_auth_username u))
    (default ""%string (webhook_auth_password u))
    (default ""%string (webhook_auth_token_url u))
    (oauth_format u).

Definition fetch_for (rt : Runtime) (u : User) : M jsval :=
  fetchOAuthToken rt
    (default ""%string (webhook_auth_username u))
    (default ""%string (webhook_auth_password u))
    (default ""%string (webhook_auth_token_url u))
    (oauth_format u).

(** The lifetime, in seconds, that [getValidOAuthToken] takes from a token
    response: its [expires_in] when that is a number other than zero, 3600
    when it is missing, [null] or zero. *)
Definition lifetime (tokenResponse : jsval) (n : Z) : Prop :=
  (prop tokenResponse "expires_in" = JNum n /\ n <> 0)
  \/ (truthy (prop tokenResponse "expires_in") = false /\ n = 3600).

(** The body of the [try] block of [getValidOAuthToken]. *)
Definition renewal (rt : Runtime) (u : User) : M jsval :=
  tokenResponse <- fetch_for rt u ;;
  let expiresIn := js_or (prop tokenResponse "expires_in") (JNum 3600) in
  now <- Date_now ;;
  expirationTime <-
    toISOString ((fun n => now + n * 1000) <$> ToNumber rt expiresIn) ;;
  updateUserWebhookAuth rt (id u)
    (set_cfg_token_expiration
       (set_cfg_token empty_config (prop tokenResponse "access_token"))
       (Some expirationTime)) ;;;
  ret (prop tokenResponse "access_token").

(** Row [u] with another cache. *)
Definition with_cache (u : User) (tok : option string) (expiration : option Z)
    : User :=
  {| id := id u; username := username u; password := password u;
     is_admin := is_admin u; session_name := session_name u;
     callback_url := callback_url u;
     webhook_auth_type := webhook_auth_type u;
     webhook_auth_username := webhook_auth_username u;
     webhook_auth_password := webhook_auth_password u;
     webhook_auth_token_url := webhook_auth_token_url u;
     webhook_auth_token := tok;
     webhook_auth_token_expiration := expiration;
     webhook_oauth_format := webhook_oauth_format u;
     created_at := created_at u |}.

(** The table once the cache of the rows with id [userId] has been written. *)
Definition persist (userId : Z) (tok : string) (expiration : Z)
    (rows : list User) : list User :=
  map (fun r => if id r =? userId
                then with_cache r (Some tok) (Some expiration) else r) rows.

(** Two rows that agree on everything but the two cache columns. *)
Definition same_but_cache (a b : User) : Prop :=
  with_cache a None None = with_cache b None None.

(** A configuration that names no column besides the two cache columns. *)
Definition cache_only (c : AuthConfig) : Prop :=
  cfg_webhook_auth_type c = None
  /\ cfg_webhook_auth_username c = None
  /\ cfg_webhook_auth_password c = None
  /\ cfg_webhook_auth_token_url c = None
  /\ cfg_webhook_oauth_format c = None.

(** The shapes of a token endpoint answer from which a token is taken. *)
Definition accepted_shape (d : jsval) : Prop :=
  has_field d "access_token"
  \/ has_field d "token"
  \/ (has_field d "success" /\ has_field (prop d "data") "token").

(** An answer of the token endpoint that yields no token: a network error,
    a status outside 200..299, or a body of none of the accepted shapes. *)
Definition acquisition_fails (o : outcome) : Prop :=
  match o with
  | NetworkError _ => True
  | Response st d => ~ (200 <= st < 300) \/ ~ accepted_shape d
  end.

(** A message the dispatcher does not ignore: not self-sent, and its
    recipient identifier does not contain ["broadcast"]. *)
Definition relevant (m : MessageReceived) : Prop :=
  fromMe (key m) = false
  /\ forall jid, remoteJid (key m) = Some jid ->
                 includes jid "broadcast" = false.

(** The webhook POST of [body] to [url] with the given auth headers. *)
Definition webhook_post (url : string) (body : jsval)
    (auth : list (string * string)) : request :=
  {| req_url := url; req_body := BodyJson body;
     req_headers := ("Content-Type", "application/json")%string :: auth |}.

(** The row [getUserByUsername] finds. *)
Definition resolves (w : World) (sessionName : string) (u : option User)
    : Prop :=
  find (fun r => (username r =? sessionName)%string) (db w) = u.

(** Two rows that agree on the columns no webhook-auth update names. *)
Definition same_identity (a b : User) : Prop :=
  id a = id b /\ username a = username b /\ password a = password b
  /\ is_admin a = is_admin b /\ session_name a = session_name b
  /\ callback_url a = callback_url b /\ created_at a = created_at b.

(** The legacy delivery of [body] that follows a tenant delivery, if the
    legacy URL is set; [suffix] is [""] for messages, ["/session"] for
    session events. *)
Definition legacy_posts (base : option string) (suffix : string)
    (body : jsval) : list request :=
  if truthy_str base
  then [webhook_post (default ""%string base +:+ suffix) body []]
  else [].

(** What a webhook delivery may change: the two cache columns of the table
    and nothing of the QR store or the message store. *)
Definition only_cache_written (w w' : World) : Prop :=
  Forall2 same_but_cache (db w) (db w')
  /\ qrCodes w' = qrCodes w
  /\ messageStore w' = messageStore w.

(** ** Sample data *)

Definition alice : User :=
  {| id := 1; username := "alice"; password := "$2b$10$hash"; is_admin := 0;
     session_name := None; callback_url := Some "https://x/hook"%string;
     webhook_auth_type := Some "none"%string;
     webhook_auth_username := None; webhook_auth_password := None;
     webhook_auth_token_url := None; webhook_auth_token := None;
     webhook_auth_token_expiration := None;
     webhook_oauth_format := Some "oauth2"%string;
     created_at := "2025-01-01 00:00:00" |}.

(** [alice] with another callback and webhook-auth configuration. *)
Definition configured (u : User) (callback type user pass url tok : option string)
    (expiration : option Z) : User :=
  {| id := id u; username := username u; password := password u;
     is_admin := is_admin u; session_name := session_name u;
     callback_url := callback;
     webhook_auth_type := type;
     webhook_auth_username := user; webhook_auth_password := pass;
     webhook_auth_token_url := url; webhook_auth_token := tok;
     webhook_auth_token_expiration := expiration;
     webhook_oauth_format := webhook_oauth_format u;
     created_at := created_at u |}.

(** A second tenant. *)
Definition bob : User :=
  {| id := 2; username := "bob"; password := "$2b$10$other"; is_admin := 0;
     session_name := None; callback_url := Some "https://y/hook"%string;
     webhook_auth_type := Some "none"%string;
     webhook_auth_username := None; webhook_auth_password := None;
     webhook_auth_token_url := None; webhook_auth_token := None;
     webhook_auth_token_expiration := None;
     webhook_oauth_format := Some "oauth2"%string;
     created_at := "2025-01-02 00:00:00" |}.

Definition world_of (rows : list User) (now : Z) : World :=
  {| db := rows; clock := now; posts := []; qrCodes := ∅; messageStore := [] |}.

(** A runtime whose network always gives the same answer after 40 ms, and
    which rejects every value of an undeclared type. *)
Definition runtime_answering (o : outcome) : Runtime :=
  {| net := fun _ _ => (o, 40);
     ToNumber_other := fun _ => None;
     ToString_other := fun _ => ""%string;
     bind_other := fun _ => None |}.

Definition hello (session : string) : MessageReceived :=
  {| sessionId := session;
     key := {| fromMe := false;
               remoteJid := Some "628123456789@s.whatsapp.net"%string;
               key_id := JStr "3A5089C2F2652D46EBC5" |};
     message :=
       Some {| conversation := Some "Hello World"%string;
               extendedTextMessage_text := None;
               imageMessage_caption := None;
               videoMessage_caption := None;
               documentMessage_caption := None;
               contactMessage_displayName := None;
               locationMessage_comment := None;
               liveLocationMessage_caption := None |} |}.

(** * Properties *)

(** ** Strings, truthiness, Base64 *)

Lemma truthy_str_present (o : option string) :
  truthy_str o = true <-> present o.
Proof.
  unfold present. destruct o as [s|]; simpl.
  - rewrite negb_true_iff, String.eqb_neq. split.
    + intros H. exists s. auto.
    + intros (s' & [= <-] & H). exact H.
  - split; [discriminate | intros (s & [=] & _)].
Qed.

Lemma truthy_str_absent (o : option string) :
  truthy_str o = false <-> ~ present o.
Proof.
  rewrite <- truthy_str_present. destruct (truthy_str o); split;
    congruence || auto.
Qed.

Lemma present_default (o : option string) (s : string) :
  o = Some s -> default ""%string o = s.
Proof. intros ->. reflexivity. Qed.

Example base64_user_pass : base64 "user:pass" = "dXNlcjpwYXNz"%string.
Proof. reflexivity. Qed.

Example base64_padding :
  base64 "a" = "YQ=="%string /\ base64 "ab" = "YWI="%string.
Proof. split; reflexivity. Qed.

Example includes_broadcast :
  includes "status@broadcast" "broadcast" = true
  /\ includes "628123@s.whatsapp.net" "broadcast" = false.
Proof. split; reflexivity. Qed.

(** ** The QR code store *)

Lemma TTL_is_five_minutes : QRStore.TTL = 300000.
Proof. reflexivity. Qed.

Lemma getQR_storeQR (m : gmap string QRStore.entry)
    (s c : string) (t0 t1 : Z) :
  QRStore.getQR t1 s (QRStore.storeQR t0 s c m)
  = if t1 - t0 >? QRStore.TTL
    then (None, delete s m)
    else (Some c, QRStore.storeQR t0 s c m).
Proof.
  unfold QRStore.getQR, QRStore.storeQR.
  rewrite lookup_insert_eq. simpl.
  destruct (t1 - t0 >? QRStore.TTL); [| reflexivity].
  by rewrite delete_insert_eq.
Qed.

(** C5 (as the code has it).  [getQR] right after [storeQR] returns the stored
    challenge, and leaves the map alone, as long as the time elapsed since the
    store is at most the five-minute TTL; once strictly more than the TTL has
    elapsed it evicts the entry and returns nothing. *)
Theorem getQR_after_storeQR (m : gmap string QRStore.entry)
    (s c : string) (t0 t1 : Z) :
  (t1 - t0 <= QRStore.TTL ->
     QRStore.getQR t1 s (QRStore.storeQR t0 s c m)
     = (Some c, QRStore.storeQR t0 s c m))
  /\ (QRStore.TTL < t1 - t0 ->
     QRStore.getQR t1 s (QRStore.storeQR t0 s c m) = (None, delete s m)).
Proof.
  rewrite getQR_storeQR.
  split; intros H; destruct (Z.gtb_spec (t1 - t0) QRStore.TTL);
    solve [reflexivity | lia].
Qed.

Lemma getQR_after_storeQR_witness :
  QRStore.getQR 1100 "alice" (QRStore.storeQR 1000 "alice" "2@qr" ∅)
  = (Some "2@qr"%string, QRStore.storeQR 1000 "alice" "2@qr" ∅)
  /\ QRStore.getQR 400000 "alice" (QRStore.storeQR 1000 "alice" "2@qr" ∅)
     = (None, delete "alice"%string ∅).
Proof.
  split.
  - apply (proj1 (getQR_after_storeQR ∅ "alice" "2@qr" 1000 1100)).
    vm_compute. discriminate.
  - apply (proj2 (getQR_after_storeQR ∅ "alice" "2@qr" 1000 400000)).
    vm_compute. reflexivity.
Defined.

(** C5 fails as stated: exactly five minutes after the store, the elapsed time
    is not strictly below the TTL, yet the challenge is still returned and the
    entry is kept. *)
Lemma getQR_at_TTL_still_returns :
  let m := QRStore.storeQR 1000 "alice" "2@qr" ∅ in
  ~ (301000 - 1000 < QRStore.TTL)
  /\ 301000 - 1000 >= QRStore.TTL
  /\ QRStore.getQR 301000 "alice" m = (Some "2@qr"%string, m).
Proof.
  cbv zeta. split; [|split].
  - unfold QRStore.TTL. lia.
  - unfold QRStore.TTL. lia.
  - rewrite getQR_storeQR. reflexivity.
Qed.

(** ** The effect monad *)

Lemma try_catch_returns {A} (m : M A) (v : A) (w : World) :
  exists a w', try_catch m (fun _ => ret v) w = (Ok a, w').
Proof.
  unfold try_catch, ret. destruct (m w) as [[a|e] w']; eauto.
Qed.

Lemma bind_Ok {A B} (m : M A) (k : A -> M B) (w w' : World) (a : A) :
  m w = (Ok a, w') -> bind m k w = k a w'.
Proof. unfold bind. intros ->. reflexivity. Qed.

Lemma bind_Throw {A B} (m : M A) (k : A -> M B) (w w' : World) (e : exn) :
  m w = (Throw e, w') -> bind m k w = (Throw e, w').
Proof. unfold bind. intros ->. reflexivity. Qed.

(** ** The auth-header resolver *)

(** [getValidOAuthToken] catches whatever its body throws. *)
Lemma getValidOAuthToken_returns (rt : Runtime) (u : User) (w : World) :
  exists t w', getValidOAuthToken rt u w = (Ok t, w').
Proof.
  unfold getValidOAuthToken.
  destruct (_ || _); [unfold ret; eauto |].
  destruct (negb (truthy_str (webhook_auth_token u))); simpl.
  - unfold bind at 1, ret at 1. apply try_catch_returns.
  - unfold isTokenExpired.
    destruct (webhook_auth_token_expiration u) as [e|].
    + unfold bind, Date_now, ret.
      destruct (e - clock w <? bufferTime); [apply try_catch_returns | eauto].
    + unfold bind at 1, ret at 1. apply try_catch_returns.
Qed.

Lemma getWebhookAuthHeaders_returns (rt : Runtime) (user : option User)
    (w : World) :
  exists h w', getWebhookAuthHeaders rt user w = (Ok h, w').
Proof.
  unfold getWebhookAuthHeaders.
  destruct user as [u|]; [| unfold ret; eauto].
  repeat match goal with
         | |- context [if ?b then _ else _] =>
             destruct b; try (unfold ret; eauto; fail)
         end.
  destruct (getValidOAuthToken_returns rt u w) as (t & w' & Ht).
  rewrite (bind_Ok _ _ _ _ _ Ht).
  destruct (truthy t); unfold ret; eauto.
Qed.

Lemma getWebhookAuthHeaders_oauth (rt : Runtime) (u : User) (w : World) :
  webhook_auth_type u = Some "oauth"%string ->
  getWebhookAuthHeaders rt (Some u) w
  = (token <- getValidOAuthToken rt u ;;
     if truthy token
     then ret [("Authorization", "Bearer " +:+ ToString rt token)]%string
     else ret []) w.
Proof. intros H. unfold getWebhookAuthHeaders. rewrite H. reflexivity. Qed.

(** C7.  Outside the OAuth scheme [getWebhookAuthHeaders] is a function of the
    tenant's configuration alone, with no effect on the world: no tenant, no
    auth type or type ["none"] give no header; type ["basic"] gives exactly
    [Authorization: Basic base64(username:password)] when both credentials are
    present and no header when either is missing; type ["bearer"] gives
    exactly [Authorization: Bearer token] when the static token is present and
    no header otherwise.  On every input the resolver returns a header set
    (it never throws). *)
Theorem getWebhookAuthHeaders_static (rt : Runtime) (w : World) :
  getWebhookAuthHeaders rt None w = (Ok [], w)
  /\ (forall u,
        webhook_auth_type u = None \/ webhook_auth_type u = Some "none"%string ->
        getWebhookAuthHeaders rt (Some u) w = (Ok [], w))
  /\ (forall u,
        webhook_auth_type u = Some "basic"%string ->
        (forall un pw,
           webhook_auth_username u = Some un -> un <> ""%string ->
           webhook_auth_password u = Some pw -> pw <> ""%string ->
           getWebhookAuthHeaders rt (Some u) w
           = (Ok [("Authorization",
                   "Basic " +:+ base64 (un +:+ ":" +:+ pw))]%string, w))
        /\ (~ present (webhook_auth_username u)
            \/ ~ present (webhook_auth_password u) ->
            getWebhookAuthHeaders rt (Some u) w = (Ok [], w)))
  /\ (forall u,
        webhook_auth_type u = Some "bearer"%string ->
        (forall tok,
           webhook_auth_token u = Some tok -> tok <> ""%string ->
           getWebhookAuthHeaders rt (Some u) w
           = (Ok [("Authorization", "Bearer " +:+ tok)]%string, w))
        /\ (~ present (webhook_auth_token u) ->
            getWebhookAuthHeaders rt (Some u) w = (Ok [], w)))
  /\ (forall user, exists h w',
        getWebhookAuthHeaders rt user w = (Ok h, w')).
Proof.
  split; [reflexivity |].
  split.
  { intros u [H|H]; unfold getWebhookAuthHeaders; rewrite H; reflexivity. }
  split.
  { intros u Ht. split.
    - intros un pw Hu Hun Hp Hpw.
      unfold getWebhookAuthHeaders. rewrite Ht, Hu, Hp. simpl.
      apply String.eqb_neq in Hun, Hpw. rewrite Hun, Hpw. reflexivity.
    - intros H. unfold getWebhookAuthHeaders. rewrite Ht. simpl.
      destruct H as [H|H]; apply truthy_str_absent in H; rewrite H;
        [reflexivity | by rewrite andb_false_r]. }
  split.
  { intros u Ht. split.
    - intros tok Hk Hne.
      unfold getWebhookAuthHeaders. rewrite Ht, Hk. simpl.
      apply String.eqb_neq in Hne. rewrite Hne. reflexivity.
    - intros H. unfold getWebhookAuthHeaders. rewrite Ht. simpl.
      apply truthy_str_absent in H. rewrite H. reflexivity. }
  intros user. apply getWebhookAuthHeaders_returns.
Qed.

Lemma getWebhookAuthHeaders_static_witness :
  let u := configured alice (Some "https://x/hook") (Some "basic")
             (Some "user") (Some "pass") None None None in
  let w := world_of [u] 1000 in
  getWebhookAuthHeaders (runtime_answering (NetworkError "down")) (Some u) w
  = (Ok [("Authorization", "Basic dXNlcjpwYXNz")]%string, w).
Proof.
  cbv zeta.
  destruct (getWebhookAuthHeaders_static
              (runtime_answering (NetworkError "down"))
              (world_of [configured alice (Some "https://x/hook") (Some "basic")
                           (Some "user") (Some "pass") None None None] 1000))
    as (_ & _ & Hbasic & _).
  apply (proj1 (Hbasic (configured alice (Some "https://x/hook") (Some "basic")
                          (Some "user") (Some "pass") None None None) eq_refl)
           "user" "pass")%string;
    solve [reflexivity | discriminate].
Defined.

(** ** The token endpoint *)

Lemma opt_prop_prop (v : jsval) (k : string) : opt_prop v k = prop v k.
Proof. destruct v; reflexivity. Qed.

Lemma in_2xx (st : Z) : 200 <= st < 300 -> (200 <=? st) && (st <? 300) = true.
Proof. intros H. apply andb_true_iff. split; [apply Z.leb_le | apply Z.ltb_lt]; lia. Qed.

Example axios_post_404 :
  fst (axios_post (runtime_answering (Response 404 (JStr "")))
         (token_request "id" "secret" "https://x/token" "json")
         (world_of [] 0))
  = Throw (AxiosError (Some (JStr "")) "Request failed with status code 404").
Proof. reflexivity. Qed.

(** What [fetchOAuthToken] does with a 2xx answer. *)
Lemma fetchOAuthToken_2xx (rt : Runtime)
    (username password tokenUrl format : string)
    (w : World) (st : Z) (d : jsval) (dt : Z) :
  net rt (posts w) (token_request username password tokenUrl format)
  = (Response st d, dt) ->
  200 <= st < 300 ->
  fetchOAuthToken rt username password tokenUrl format w
  = (if nullish d then Throw TypeError
     else if truthy (prop d "access_token") then Ok d
     else if truthy (prop d "token") then
       Ok (JObj [("access_token", prop d "token");
                 ("expires_in",
                  js_or (prop d "expires_in") (prop d "expiresIn"))]%string)
     else if truthy (prop d "success")
             && truthy (prop (prop d "data") "token") then
       Ok (JObj [("access_token", prop (prop d "data") "token");
                 ("expires_in",
                  js_or (prop (prop d "data") "expires_in")
                        (prop (prop d "data") "expiresIn"))]%string)
     else Throw (Error (UnexpectedTokenResponseFormat d)),
     after_post w (token_request username password tokenUrl format) dt).
Proof.
  intros Hnet Hst.
  unfold fetchOAuthToken, try_catch, bind, axios_post, read.
  rewrite Hnet, (in_2xx _ Hst), opt_prop_prop.
  destruct (nullish d); [reflexivity |].
  unfold ret, throw.
  repeat match goal with
         | |- context [if ?b then _ else _] => destruct b
         end; reflexivity.
Qed.




(** [fetchOAuthToken] sends exactly one request and touches nothing else. *)
Lemma fetchOAuthToken_world (rt : Runtime)
    (username password tokenUrl format : string) (w : World) :
  snd (fetchOAuthToken rt username password tokenUrl format w)
  = after_post w (token_request username password tokenUrl format)
      (snd (net rt (posts w)
              (token_request username password tokenUrl format))).
Proof.
  unfold fetchOAuthToken, try_catch, bind, axios_post, read.
  destruct (net rt _ _) as [[m|st d] dt]; simpl.
  - reflexivity.
  - destruct ((200 <=? st) && (st <? 300)).
    + unfold ret, throw.
      repeat match goal with
             | |- context [if ?b then _ else _] => destruct b
             end; reflexivity.
    + reflexivity.
Qed.

(** Whatever makes the acquisition fail makes [fetchOAuthToken] throw. *)
Lemma fetchOAuthToken_fails (rt : Runtime)
    (username password tokenUrl format : string) (w : World)
    (o : outcome) (dt : Z) :
  net rt (posts w) (token_request username password tokenUrl format) = (o, dt) ->
  acquisition_fails o ->
  exists e,
    fetchOAuthToken rt username password tokenUrl format w
    = (Throw e,
       after_post w (token_request username password tokenUrl format) dt).
Proof.
  intros Hnet Hfail.
  destruct o as [m|st d].
  - unfold fetchOAuthToken, try_catch, bind, axios_post. rewrite Hnet.
    eexists. reflexivity.
  - destruct (decide (200 <= st < 300)) as [Hst|Hst].
    + rewrite (fetchOAuthToken_2xx _ _ _ _ _ _ _ _ _ Hnet Hst).
      destruct Hfail as [Hfail|Hfail]; [contradiction |].
      unfold accepted_shape, has_field in Hfail.
      destruct (nullish d); [eauto |].
      destruct (truthy (prop d "access_token")); [tauto |].
      destruct (truthy (prop d "token")); [tauto |].
      destruct (truthy (prop d "success"));
        destruct (truthy (prop (prop d "data") "token"));
        simpl; solve [tauto | eauto].
    + unfold fetchOAuthToken, try_catch, bind, axios_post. rewrite Hnet.
      replace ((200 <=? st) && (st <? 300)) with false.
      * eexists. reflexivity.
      * symmetry. apply not_true_is_false. rewrite andb_true_iff.
        rewrite Z.leb_le, Z.ltb_lt. exact Hst.
Qed.

(** ** The token cache *)

Lemma configured_test (u : User) :
  oauth_configured u ->
  negb (truthy_str (webhook_auth_username u))
  || negb (truthy_str (webhook_auth_password u))
  || negb (truthy_str (webhook_auth_token_url u)) = false.
Proof.
  intros (H1 & H2 & H3). apply truthy_str_present in H1, H2, H3.
  by rewrite H1, H2, H3.
Qed.

Lemma unconfigured_test (u : User) :
  ~ oauth_configured u ->
  negb (truthy_str (webhook_auth_username u))
  || negb (truthy_str (webhook_auth_password u))
  || negb (truthy_str (webhook_auth_token_url u)) = true.
Proof.
  intros H. unfold oauth_configured in H.
  rewrite <- !truthy_str_present in H.
  destruct (truthy_str (webhook_auth_username u)),
           (truthy_str (webhook_auth_password u)),
           (truthy_str (webhook_auth_token_url u)); simpl; tauto.
Qed.

Lemma bufferTime_is_five_minutes : bufferTime = 300000.
Proof. reflexivity. Qed.

Lemma getValidOAuthToken_unconfigured (rt : Runtime) (u : User) (w : World) :
  ~ oauth_configured u -> getValidOAuthToken rt u w = (Ok JNull, w).
Proof.
  intros H. unfold getValidOAuthToken.
  by rewrite (unconfigured_test u H).
Qed.

Lemma getValidOAuthToken_fresh (rt : Runtime) (u : User) (w : World) :
  oauth_configured u ->
  cache_fresh u (clock w) ->
  getValidOAuthToken rt u w = (Ok (of_nullable (webhook_auth_token u)), w).
Proof.
  intros Hc (Ht & e & He & Hle).
  unfold getValidOAuthToken. rewrite (configured_test u Hc).
  apply truthy_str_present in Ht. rewrite Ht, He. simpl.
  unfold bind, Date_now, ret.
  destruct (Z.ltb_spec (e - clock w) bufferTime) as [Hlt|_];
    [rewrite bufferTime_is_five_minutes in Hlt; lia | reflexivity].
Qed.

Lemma getValidOAuthToken_stale (rt : Runtime) (u : User) (w : World) :
  oauth_configured u ->
  ~ cache_fresh u (clock w) ->
  getValidOAuthToken rt u w
  = try_catch (renewal rt u) (fun _ => ret JNull) w.
Proof.
  intros Hc Hstale.
  unfold getValidOAuthToken. rewrite (configured_test u Hc).
  unfold cache_fresh in Hstale. rewrite <- truthy_str_present in Hstale.
  destruct (truthy_str (webhook_auth_token u)); simpl; [| reflexivity].
  destruct (webhook_auth_token_expiration u) as [e|]; simpl; [| reflexivity].
  unfold bind at 1 2, Date_now, ret at 1. cbn beta iota.
  destruct (Z.ltb_spec (e - clock w) bufferTime) as [_|Hge];
    [reflexivity |].
  exfalso. apply Hstale. split; [reflexivity |].
  exists e. split; [reflexivity |].
  rewrite bufferTime_is_five_minutes in Hge. lia.
Qed.

Lemma apply_cache_updates (v : jsval) (tok : string) (e : Z) (r : User) :
  apply_updates
    (set_cfg_token_expiration (set_cfg_token empty_config v) (Some e))
    (Some (Some tok)) r
  = with_cache r (Some tok) (Some e).
Proof. reflexivity. Qed.

(** A successful fetch is returned and written through. *)
Lemma renewal_success (rt : Runtime) (u : User) (w w1 : World)
    (resp : jsval) (tok : string) (n : Z) :
  fetch_for rt u w = (Ok resp, w1) ->
  prop resp "access_token" = JStr tok ->
  lifetime resp n ->
  Z.abs (clock w1 + n * 1000) <= MAX_TIME ->
  renewal rt u w
  = (Ok (JStr tok),
     with_db w1 (persist (id u) tok (clock w1 + n * 1000) (db w1))).
Proof.
  intros Hf Ha Hl Hrange.
  unfold renewal. rewrite (bind_Ok _ _ _ _ _ Hf).
  assert (ToNumber rt (js_or (prop resp "expires_in") (JNum 3600)) = Some n)
    as Hn.
  { unfold js_or. destruct Hl as [[-> Hn]|[-> ->]]; [| reflexivity].
    simpl. apply Z.eqb_neq in Hn. by rewrite Hn. }
  rewrite Hn, Ha. simpl.
  unfold bind, Date_now, toISOString.
  apply Z.leb_le in Hrange. rewrite Hrange.
  reflexivity.
Qed.

Lemma fetch_for_world (rt : Runtime) (u : User) (w : World) :
  snd (fetch_for rt u w)
  = after_post w (token_request_of u)
      (snd (net rt (posts w) (token_request_of u))).
Proof. apply fetchOAuthToken_world. Qed.

(** A fetched token response carries a truthy [access_token]. *)
Lemma fetchOAuthToken_token_truthy (rt : Runtime)
    (username password tokenUrl format : string) (w w1 : World)
    (resp : jsval) :
  fetchOAuthToken rt username password tokenUrl format w = (Ok resp, w1) ->
  truthy (prop resp "access_token") = true.
Proof.
  unfold fetchOAuthToken, try_catch, bind, axios_post, read.
  destruct (net rt _ _) as [[m|st d] dt]; simpl; [discriminate |].
  destruct ((200 <=? st) && (st <? 300)); [| discriminate].
  destruct (nullish d); [discriminate |].
  unfold ret, throw.
  destruct (truthy (prop d "access_token")) eqn:Ha;
    [intros [= <- _]; exact Ha |].
  destruct (truthy (prop d "token")) eqn:Ht;
    [intros [= <- _]; exact Ht |].
  destruct (truthy (prop d "success")); [| discriminate].
  rewrite opt_prop_prop.
  destruct (truthy (prop (prop d "data") "token")) eqn:Hd;
    [intros [= <- _]; exact Hd | discriminate].
Qed.

(** The headers of an OAuth tenant, from the token. *)
Lemma getWebhookAuthHeaders_bearer (rt : Runtime) (u : User) (w w' : World)
    (tok : string) :
  webhook_auth_type u = Some "oauth"%string ->
  getValidOAuthToken rt u w = (Ok (JStr tok), w') ->
  tok <> ""%string ->
  getWebhookAuthHeaders rt (Some u) w
  = (Ok [("Authorization", "Bearer " +:+ tok)]%string, w').
Proof.
  intros Ht Hg Hne. rewrite (getWebhookAuthHeaders_oauth rt u w Ht).
  rewrite (bind_Ok _ _ _ _ _ Hg). simpl.
  apply String.eqb_neq in Hne. by rewrite Hne.
Qed.

(** C2 (as the code has it).  For a tenant with username, password and token
    URL present: when a cached token is present and its expiration less the
    five-minute buffer is not before the current instant, the cached token is
    returned and the world is left as it was (no request, no write);
    otherwise one token request is sent, and when the fetch succeeds with a
    string token, that token is returned and written to the tenant's row
    together with the expiration [now + lifetime * 1000], where the lifetime
    is [expires_in] when that is a non-zero number and 3600 when it is
    missing, [null] or zero.  For a tenant of type ["oauth"] the resolved
    headers are then [Authorization: Bearer] followed by that token. *)
Theorem getValidOAuthToken_cache_or_renew (rt : Runtime) (u : User)
    (w : World) :
  oauth_configured u ->
  (cache_fresh u (clock w) ->
     getValidOAuthToken rt u w = (Ok (of_nullable (webhook_auth_token u)), w)
     /\ (webhook_auth_type u = Some "oauth"%string ->
         forall tok,
           webhook_auth_token u = Some tok ->
           getWebhookAuthHeaders rt (Some u) w
           = (Ok [("Authorization", "Bearer " +:+ tok)]%string, w)))
  /\ (~ cache_fresh u (clock w) ->
      exists r w1,
        fetch_for rt u w = (r, w1)
        /\ posts w1 = posts w ++ [token_request_of u]
        /\ db w1 = db w
        /\ forall resp tok n,
             r = Ok resp ->
             prop resp "access_token" = JStr tok ->
             lifetime resp n ->
             Z.abs (clock w1 + n * 1000) <= MAX_TIME ->
             let w' :=
               with_db w1
                 (persist (id u) tok (clock w1 + n * 1000) (db w)) in
             getValidOAuthToken rt u w = (Ok (JStr tok), w')
             /\ (webhook_auth_type u = Some "oauth"%string ->
                 getWebhookAuthHeaders rt (Some u) w
                 = (Ok [("Authorization", "Bearer " +:+ tok)]%string, w'))).
Proof.
  intros Hc. split.
  - intros Hf.
    pose proof (getValidOAuthToken_fresh rt u w Hc Hf) as Hg.
    split; [exact Hg |].
    intros Ht tok Htok. rewrite Htok in Hg.
    apply (getWebhookAuthHeaders_bearer rt u w w tok Ht Hg).
    destruct Hf as [(s & Hs & Hne) _]. congruence.
  - intros Hstale.
    destruct (fetch_for rt u w) as [r w1] eqn:Hf.
    pose proof (fetch_for_world rt u w) as Hw. rewrite Hf in Hw. simpl in Hw.
    exists r, w1. split; [reflexivity |].
    split; [by rewrite Hw |]. split; [by rewrite Hw |].
    intros resp tok n -> Ha Hl Hrange w'.
    assert (getValidOAuthToken rt u w = (Ok (JStr tok), w')) as Hg.
    { rewrite (getValidOAuthToken_stale rt u w Hc Hstale).
      unfold try_catch.
      rewrite (renewal_success rt u w w1 resp tok n Hf Ha Hl Hrange).
      subst w'. by rewrite Hw. }
    split; [exact Hg |].
    intros Ht. apply (getWebhookAuthHeaders_bearer rt u w w' tok Ht Hg).
    pose proof (fetchOAuthToken_token_truthy _ _ _ _ _ _ _ _ Hf) as Htr.
    rewrite Ha in Htr. simpl in Htr.
    apply negb_true_iff, String.eqb_neq in Htr. exact Htr.
Qed.

Lemma getValidOAuthToken_cache_or_renew_witness :
  let u := configured alice (Some "https://x/hook") (Some "oauth")
             (Some "id") (Some "secret") (Some "https://x/token")
             (Some "cached") (Some 121000) in
  let rt := runtime_answering
              (Response 200 (JObj [("access_token", JStr "fresh");
                                   ("expires_in", JNum 60)]%string)) in
  let w := world_of [u] 1000 in
  getValidOAuthToken rt u w
  = (Ok (JStr "fresh"),
     with_db (after_post w (token_request_of u) 40)
       [with_cache u (Some "fresh"%string) (Some 61040)]).
Proof.
  cbv zeta.
  set (u := configured alice (Some "https://x/hook") (Some "oauth")
              (Some "id") (Some "secret") (Some "https://x/token")
              (Some "cached") (Some 121000)).
  set (rt := runtime_answering
               (Response 200 (JObj [("access_token", JStr "fresh");
                                    ("expires_in", JNum 60)]%string))).
  assert (oauth_configured u) as Hc.
  { repeat split; eexists; (split; [reflexivity | discriminate]). }
  assert (~ cache_fresh u (clock (world_of [u] 1000))) as Hstale.
  { intros (_ & e & He & Hle). injection He as <-. simpl in Hle. lia. }
  destruct (proj2 (getValidOAuthToken_cache_or_renew rt u (world_of [u] 1000) Hc)
              Hstale) as (r & w1 & Hf & _ & _ & H).
  vm_compute in Hf. injection Hf as <- <-.
  apply (H _ "fresh"%string 60 eq_refl eq_refl).
  - left. split; [reflexivity | discriminate].
  - vm_compute. discriminate.
Defined.

(** C2 fails as stated, twice.  With the expiration exactly five minutes
    ahead, the expiration less the buffer is the current instant, not a future
    one, yet no token is fetched: the cached one is returned and the world is
    untouched.  And a response carrying [expires_in: 0] is persisted with an
    expiration one hour ahead, not [now + 0]. *)
Lemma getValidOAuthToken_boundary_and_zero :
  let u := configured alice (Some "https://x/hook") (Some "oauth")
             (Some "id") (Some "secret") (Some "https://x/token")
             (Some "cached") (Some 301000) in
  let w := world_of [u] 1000 in
  let rt := runtime_answering
              (Response 200 (JObj [("access_token", JStr "fresh");
                                   ("expires_in", JNum 60)]%string)) in
  let u0 := configured alice (Some "https://x/hook") (Some "oauth")
              (Some "id") (Some "secret") (Some "https://x/token")
              None None in
  let w0 := world_of [u0] 1000 in
  let rt0 := runtime_answering
               (Response 200 (JObj [("access_token", JStr "fresh");
                                    ("expires_in", JNum 0)]%string)) in
  (~ (clock w < 301000 - 300000)
   /\ getValidOAuthToken rt u w = (Ok (JStr "cached"), w))
  /\ (clock (snd (getValidOAuthToken rt0 u0 w0)) = 1040
      /\ db (snd (getValidOAuthToken rt0 u0 w0))
         = [with_cache u0 (Some "fresh"%string) (Some (1040 + 3600 * 1000))]
      /\ 1040 + 3600 * 1000 <> 1040 + 0 * 1000).
Proof.
  cbv zeta. split; [split | split; [| split]].
  - simpl. lia.
  - reflexivity.
  - reflexivity.
  - reflexivity.
  - lia.
Qed.

(** ** Frame of the cache write *)

Lemma with_db_same (w : World) : with_db w (db w) = w.
Proof. destruct w. reflexivity. Qed.

Lemma try_catch_world {A} (m : M A) (v : A) (w : World) :
  snd (try_catch m (fun _ => ret v) w) = snd (m w).
Proof. unfold try_catch, ret. destruct (m w) as [[a|e] w']; reflexivity. Qed.

(** [updateUserWebhookAuth] either leaves the world alone or rewrites the
    table with one [UPDATE]. *)
Lemma updateUserWebhookAuth_world (rt : Runtime) (userId : Z)
    (c : AuthConfig) (w : World) :
  snd (updateUserWebhookAuth rt userId c w) = w
  \/ exists tok,
       snd (updateUserWebhookAuth rt userId c w)
       = with_db w (update_where_id userId c tok (db w)).
Proof.
  unfold updateUserWebhookAuth.
  destruct (has_updates c); [| left; reflexivity].
  unfold bind, sqlite_bind, set_db, ret, throw.
  destruct (cfg_webhook_auth_token c); simpl;
    try destruct (bind_other rt _); simpl;
    solve [left; reflexivity | right; eexists; reflexivity].
Qed.

Lemma update_where_id_frame (userId : Z) (c : AuthConfig)
    (tok : option (option string)) (rows : list User) :
  cache_only c ->
  Forall2 same_but_cache rows (update_where_id userId c tok rows)
  /\ Forall2 (fun a b => id a <> userId -> a = b)
       rows (update_where_id userId c tok rows).
Proof.
  intros (H1 & H2 & H3 & H4 & H5).
  induction rows as [|r rows [IH1 IH2]]; simpl; [split; constructor |].
  split; constructor; try assumption.
  - destruct (id r =? userId); [| reflexivity].
    unfold same_but_cache, with_cache, apply_updates.
    rewrite H1, H2, H3, H4, H5. reflexivity.
  - intros Hne. apply Z.eqb_neq in Hne. by rewrite Hne.
Qed.

Lemma Forall2_same (P : User -> User -> Prop) (rows : list User) :
  (forall r, P r r) -> Forall2 P rows rows.
Proof. intros H. induction rows; constructor; auto. Qed.

(** The world after the [try] block: one token request has been sent, and
    the table is unchanged or has received one cache-only update. *)
Lemma renewal_world (rt : Runtime) (u : User) (w : World) :
  let w1 := after_post w (token_request_of u)
              (snd (net rt (posts w) (token_request_of u))) in
  snd (renewal rt u w) = w1
  \/ exists c tok,
       cache_only c
       /\ snd (renewal rt u w)
          = with_db w1 (update_where_id (id u) c tok (db w)).
Proof.
  unfold renewal, bind, Date_now, ret.
  pose proof (fetch_for_world rt u w) as Hw.
  destruct (fetch_for rt u w) as [[resp|e] w1]; simpl in Hw; subst w1;
    [| left; reflexivity].
  destruct (toISOString _ _) as [[t|e] w2] eqn:Ht.
  - assert (w2 = after_post w (token_request_of u)
                   (snd (net rt (posts w) (token_request_of u)))) as ->.
    { unfold toISOString, ret, throw in Ht.
      destruct (_ <$> _) as [t'|]; [destruct (Z.abs t' <=? MAX_TIME) |];
        congruence. }
    match goal with
    | |- context [updateUserWebhookAuth rt ?i ?c ?w0] =>
        destruct (updateUserWebhookAuth_world rt i c w0) as [Hu|[tok Hu]];
        destruct (updateUserWebhookAuth rt i c w0) as [[[]|e] w3];
        simpl in Hu; subst w3
    end; try (left; reflexivity);
      right; eexists _, tok; (split; [| reflexivity]); repeat split.
  - left. unfold toISOString, ret, throw in Ht.
    destruct (_ <$> _) as [t'|]; [destruct (Z.abs t' <=? MAX_TIME) |];
      injection Ht as _ <-; reflexivity.
Qed.

Lemma renewal_db (rt : Runtime) (u : User) (w : World) :
  db (snd (renewal rt u w)) = db w
  \/ exists c tok,
       cache_only c
       /\ db (snd (renewal rt u w)) = update_where_id (id u) c tok (db w).
Proof.
  destruct (renewal_world rt u w) as [->|(c & tok & Hc & ->)];
    [left; reflexivity | right; eauto].
Qed.

Lemma renewal_posts (rt : Runtime) (u : User) (w : World) :
  posts (snd (renewal rt u w)) = posts w ++ [token_request_of u].
Proof.
  destruct (renewal_world rt u w) as [->|(c & tok & Hc & ->)]; reflexivity.
Qed.

Lemma configured_dec (u : User) : oauth_configured u \/ ~ oauth_configured u.
Proof.
  unfold oauth_configured. rewrite <- !truthy_str_present.
  destruct (truthy_str (webhook_auth_username u)),
           (truthy_str (webhook_auth_password u)),
           (truthy_str (webhook_auth_token_url u));
    solve [left; auto | right; intros (? & ? & ?); discriminate].
Qed.

Lemma cache_fresh_dec (u : User) (now : Z) :
  cache_fresh u now \/ ~ cache_fresh u now.
Proof.
  unfold cache_fresh. rewrite <- truthy_str_present.
  destruct (truthy_str (webhook_auth_token u));
    [| right; intros [? _]; discriminate].
  destruct (webhook_auth_token_expiration u) as [e|];
    [| right; intros (_ & e & ? & _); discriminate].
  destruct (decide (now <= e - 300000)) as [Hle|Hgt].
  - left. eauto.
  - right. intros (_ & e' & He' & Hle). injection He' as <-. lia.
Qed.

(** The world after [getValidOAuthToken]: untouched, or as the [try] block
    leaves it. *)
Lemma getValidOAuthToken_world (rt : Runtime) (u : User) (w : World) :
  snd (getValidOAuthToken rt u w) = w
  \/ snd (getValidOAuthToken rt u w) = snd (renewal rt u w).
Proof.
  destruct (configured_dec u) as [Hc|Hc].
  - destruct (cache_fresh_dec u (clock w)) as [Hf|Hf].
    + left. by rewrite getValidOAuthToken_fresh.
    + right. rewrite getValidOAuthToken_stale by assumption.
      apply try_catch_world.
  - left. by rewrite getValidOAuthToken_unconfigured.
Qed.

Lemma getValidOAuthToken_db (rt : Runtime) (u : User) (w : World) :
  db (snd (getValidOAuthToken rt u w)) = db w
  \/ exists c tok,
       cache_only c
       /\ db (snd (getValidOAuthToken rt u w))
          = update_where_id (id u) c tok (db w).
Proof.
  destruct (getValidOAuthToken_world rt u w) as [->| ->];
    [left; reflexivity | apply renewal_db].
Qed.

(** C10.  Whatever the token endpoint answers, [getValidOAuthToken] changes no
    column of any row other than [webhook_auth_token] and
    [webhook_auth_token_expiration], changes no row whose id is not the
    tenant's, and adds or removes no row; on a cache hit it leaves the whole
    world as it was. *)
Theorem getValidOAuthToken_frame (rt : Runtime) (u : User) (w : World) :
  Forall2 same_but_cache (db w) (db (snd (getValidOAuthToken rt u w)))
  /\ Forall2 (fun a b => id a <> id u -> a = b)
       (db w) (db (snd (getValidOAuthToken rt u w)))
  /\ (cache_fresh u (clock w) -> snd (getValidOAuthToken rt u w) = w).
Proof.
  split; [| split].
  - destruct (getValidOAuthToken_db rt u w) as [->|(c & tok & Hc & ->)].
    + apply Forall2_same. reflexivity.
    + by apply update_where_id_frame.
  - destruct (getValidOAuthToken_db rt u w) as [->|(c & tok & Hc & ->)].
    + apply Forall2_same. reflexivity.
    + by apply update_where_id_frame.
  - intros Hf. destruct (configured_dec u) as [Hc|Hc].
    + by rewrite getValidOAuthToken_fresh.
    + by rewrite getValidOAuthToken_unconfigured.
Qed.

(** ** Failure of the token acquisition *)

(** One delivery: whatever the headers resolve to and whatever the network
    answers, the POST is issued and the call returns normally. *)
Lemma sendWebhookWithAuth_posts (rt : Runtime) (url : string) (body : jsval)
    (user : option User) (w w1 : World) (h : list (string * string)) :
  getWebhookAuthHeaders rt user w = (Ok h, w1) ->
  let r := {| req_url := url; req_body := BodyJson body;
              req_headers :=
                Object_assign [("Content-Type", "application/json")]%string h |} in
  sendWebhookWithAuth rt url body user w
  = (Ok tt, after_post w1 r (snd (net rt (posts w1) r))).
Proof.
  intros Hh. unfold sendWebhookWithAuth, try_catch.
  rewrite (bind_Ok _ _ _ _ _ Hh).
  unfold bind, axios_post, ret.
  destruct (net rt _ _) as [[m|st d] dt]; simpl; [reflexivity |].
  destruct ((200 <=? st) && (st <? 300)); reflexivity.
Qed.

Lemma getValidOAuthToken_failure (rt : Runtime) (u : User) (w : World)
    (o : outcome) (dt : Z) :
  oauth_configured u ->
  ~ cache_fresh u (clock w) ->
  net rt (posts w) (token_request_of u) = (o, dt) ->
  acquisition_fails o ->
  getValidOAuthToken rt u w
  = (Ok JNull, after_post w (token_request_of u) dt).
Proof.
  intros Hc Hstale Hnet Hfail.
  rewrite (getValidOAuthToken_stale rt u w Hc Hstale).
  destruct (fetchOAuthToken_fails rt _ _ _ _ w o dt Hnet Hfail) as [e He].
  unfold try_catch, renewal.
  rewrite (bind_Throw _ _ _ _ _ He). reflexivity.
Qed.

(** C3.  For a tenant of type ["oauth"] whose token must be acquired, a
    network error, a status outside 200..299 or a body of none of the accepted
    shapes makes [getWebhookAuthHeaders] return the empty header set, as a
    normal result; the table is not written, and a webhook sent for that
    tenant goes out with the [Content-Type] header alone. *)
Theorem oauth_failure_gives_no_headers (rt : Runtime) (u : User) (w : World)
    (o : outcome) (dt : Z) :
  webhook_auth_type u = Some "oauth"%string ->
  oauth_configured u ->
  ~ cache_fresh u (clock w) ->
  net rt (posts w) (token_request_of u) = (o, dt) ->
  acquisition_fails o ->
  getWebhookAuthHeaders rt (Some u) w
  = (Ok [], after_post w (token_request_of u) dt)
  /\ forall url body, exists w2,
       sendWebhookWithAuth rt url body (Some u) w = (Ok tt, w2)
       /\ posts w2 = posts w ++ [token_request_of u; webhook_post url body []]
       /\ db w2 = db w.
Proof.
  intros Ht Hc Hstale Hnet Hfail.
  assert (getWebhookAuthHeaders rt (Some u) w
          = (Ok [], after_post w (token_request_of u) dt)) as Hh.
  { rewrite (getWebhookAuthHeaders_oauth rt u w Ht).
    rewrite (bind_Ok _ _ _ _ _
               (getValidOAuthToken_failure rt u w o dt Hc Hstale Hnet Hfail)).
    reflexivity. }
  split; [exact Hh |].
  intros url body. eexists. split.
  - apply (sendWebhookWithAuth_posts rt url body (Some u) w _ _ Hh).
  - split; [| reflexivity].
    simpl. rewrite <- app_assoc. reflexivity.
Qed.

Lemma oauth_failure_gives_no_headers_witness :
  let u := configured alice (Some "https://x/hook") (Some "oauth")
             (Some "id") (Some "secret") (Some "https://x/token") None None in
  let rt := runtime_answering (Response 200 (JObj [("error", JStr "nope")])) in
  let w := world_of [u] 1000 in
  getWebhookAuthHeaders rt (Some u) w
  = (Ok [], after_post w (token_request_of u) 40).
Proof.
  cbv zeta.
  apply (oauth_failure_gives_no_headers
           (runtime_answering (Response 200 (JObj [("error", JStr "nope")])))
           (configured alice (Some "https://x/hook") (Some "oauth")
              (Some "id") (Some "secret") (Some "https://x/token") None None)
           _ (Response 200 (JObj [("error", JStr "nope")])) 40 eq_refl).
  - repeat split; eexists; (split; [reflexivity | discriminate]).
  - intros ((s & Hs & _) & _). discriminate Hs.
  - reflexivity.
  - right. intros [H|[H|[H _]]]; discriminate H.
Defined.

(** ** The dispatcher *)

Lemma getValidOAuthToken_posts (rt : Runtime) (u : User) (w : World) :
  posts (snd (getValidOAuthToken rt u w)) = posts w
  \/ posts (snd (getValidOAuthToken rt u w))
     = posts w ++ [token_request_of u].
Proof.
  destruct (getValidOAuthToken_world rt u w) as [->| ->];
    [left; reflexivity | right; apply renewal_posts].
Qed.

(** What the resolver can return and send: at most an [Authorization]
    header, after at most the tenant's token request. *)
Lemma getWebhookAuthHeaders_shape (rt : Runtime) (u : User) (w w1 : World)
    (h : list (string * string)) :
  getWebhookAuthHeaders rt (Some u) w = (Ok h, w1) ->
  (h = [] \/ exists v, h = [("Authorization", v)]%string)
  /\ (posts w1 = posts w \/ posts w1 = posts w ++ [token_request_of u]).
Proof.
  unfold getWebhookAuthHeaders.
  repeat match goal with
         | |- context [if ?b then _ else _] =>
             lazymatch b with
             | truthy _ => fail
             | _ => destruct b
             end;
             try (intros [= <- <-]; split; [eauto | left; reflexivity])
         end.
  pose proof (getValidOAuthToken_posts rt u w) as Hp.
  unfold bind.
  destruct (getValidOAuthToken rt u w) as [[t|e] w2]; simpl in Hp;
    [| discriminate].
  destruct (truthy t); intros [= <- <-]; eauto.
Qed.

Lemma Object_assign_auth (h : list (string * string)) :
  h = [] \/ (exists v, h = [("Authorization", v)]%string) ->
  Object_assign [("Content-Type", "application/json")]%string h
  = ("Content-Type", "application/json")%string :: h.
Proof. intros [->|[v ->]]; reflexivity. Qed.

(** One delivery to a tenant: the token request, if any, then the POST. *)
Lemma sendWebhookWithAuth_tenant (rt : Runtime) (url : string) (body : jsval)
    (u : User) (w : World) :
  exists auth w1 w2,
    getWebhookAuthHeaders rt (Some u) w = (Ok auth, w1)
    /\ sendWebhookWithAuth rt url body (Some u) w = (Ok tt, w2)
    /\ (posts w1 = posts w \/ posts w1 = posts w ++ [token_request_of u])
    /\ posts w2 = posts w1 ++ [webhook_post url body auth].
Proof.
  destruct (getWebhookAuthHeaders_returns rt (Some u) w) as (auth & w1 & Hh).
  destruct (getWebhookAuthHeaders_shape rt u w w1 auth Hh) as [Hs Hp].
  exists auth, w1. eexists. split; [exact Hh |]. split.
  - apply (sendWebhookWithAuth_posts rt url body (Some u) w w1 auth Hh).
  - split; [exact Hp |]. simpl.
    rewrite (Object_assign_auth auth Hs). reflexivity.
Qed.

(** One delivery to the legacy webhook: a single POST without auth headers. *)
Lemma sendWebhookWithAuth_legacy (rt : Runtime) (url : string) (body : jsval)
    (w : World) :
  exists w2,
    sendWebhookWithAuth rt url body None w = (Ok tt, w2)
    /\ posts w2 = posts w ++ [webhook_post url body []].
Proof.
  eexists. split.
  - apply (sendWebhookWithAuth_posts rt url body None w w [] eq_refl).
  - reflexivity.
Qed.

Lemma relevant_test (m : MessageReceived) :
  relevant m ->
  fromMe (key m)
  || match remoteJid (key m) with
     | Some jid => includes jid "broadcast"
     | None => false
     end = false.
Proof.
  intros [-> Hj]. simpl.
  destruct (remoteJid (key m)) as [jid|]; [by apply Hj | reflexivity].
Qed.

Lemma getUserForSession_resolves (session : string) (w : World)
    (u : option User) :
  resolves w session u -> getUserForSession session w = (Ok u, w).
Proof. unfold resolves. intros <-. reflexivity. Qed.

(** The handlers, once the event is known to pass the filter and the tenant
    to have a callback. *)
Lemma onMessageReceived_dispatch (rt : Runtime) (base : option string)
    (m : MessageReceived) (w : World) (u : User) (cb : string) :
  relevant m ->
  resolves w (sessionId m) (Some u) ->
  callback_url u = Some cb ->
  cb <> ""%string ->
  onMessageReceived rt base m w
  = (sendWebhookWithAuth rt cb (message_body m) (Some u) ;;;
     if truthy_str base
     then sendWebhookWithAuth rt (default ""%string base) (message_body m) None
     else ret tt) (snd (storeMessage m w)).
Proof.
  intros Hrel Hres Hcb Hne. apply String.eqb_neq in Hne.
  unfold onMessageReceived.
  rewrite (bind_Ok _ _ w (snd (storeMessage m w)) tt eq_refl).
  rewrite (relevant_test m Hrel).
  rewrite (bind_Ok _ _ _ _ _
             (getUserForSession_resolves (sessionId m)
                (snd (storeMessage m w)) (Some u) Hres)).
  simpl. rewrite Hcb. simpl. rewrite Hne. reflexivity.
Qed.

Lemma sendSessionWebhook_dispatch (rt : Runtime) (base : option string)
    (session : string) (status : SessionStatus) (w : World) (u : User)
    (cb : string) :
  resolves w session (Some u) ->
  callback_url u = Some cb ->
  cb <> ""%string ->
  sendSessionWebhook rt base session status w
  = (sendWebhookWithAuth rt (cb +:+ "/session")
       (session_body session status) (Some u) ;;;
     if truthy_str base
     then sendWebhookWithAuth rt (default "" base +:+ "/session")%string
            (session_body session status) None
     else ret tt) w.
Proof.
  intros Hres Hcb Hne. apply String.eqb_neq in Hne.
  unfold sendSessionWebhook.
  rewrite (bind_Ok _ _ _ _ _ (getUserForSession_resolves session w (Some u) Hres)).
  simpl. rewrite Hcb. simpl. rewrite Hne. reflexivity.
Qed.

(** C8.  With a tenant callback and the legacy URL both configured, an event
    that is dispatched produces exactly two webhook POSTs carrying the same
    body, in this order: one to the tenant's destination with the headers
    resolved for the tenant, one to the legacy destination with the
    [Content-Type] header only.  Nothing else is sent except, before them, at
    most the tenant's own token request.  For a message the destinations are
    the two URLs; for a session event they are the two URLs followed by
    ["/session"].  This holds for every behaviour of the network, so a failed
    delivery does not hold back the other one; the handler returns normally. *)
Theorem both_destinations_receive (rt : Runtime) (legacy cb : string)
    (u : User) (w : World) :
  legacy <> ""%string ->
  callback_url u = Some cb ->
  cb <> ""%string ->
  (forall m,
     relevant m ->
     resolves w (sessionId m) (Some u) ->
     exists auth w1 w',
       getWebhookAuthHeaders rt (Some u) (snd (storeMessage m w))
       = (Ok auth, w1)
       /\ onMessageReceived rt (Some legacy) m w = (Ok tt, w')
       /\ (posts w1 = posts w \/ posts w1 = posts w ++ [token_request_of u])
       /\ posts w'
          = posts w1 ++ [webhook_post cb (message_body m) auth;
                         webhook_post legacy (message_body m) []])
  /\ (forall session status,
        resolves w session (Some u) ->
        exists auth w1 w',
          getWebhookAuthHeaders rt (Some u) w = (Ok auth, w1)
          /\ sendSessionWebhook rt (Some legacy) session status w = (Ok tt, w')
          /\ (posts w1 = posts w \/ posts w1 = posts w ++ [token_request_of u])
          /\ posts w'
             = posts w1
               ++ [webhook_post (cb +:+ "/session")
                     (session_body session status) auth;
                   webhook_post (legacy +:+ "/session")
                     (session_body session status) []]).
Proof.
  intros Hl Hcb Hne.
  assert (truthy_str (Some legacy) = true) as Hbase
      by (simpl; apply String.eqb_neq in Hl; by rewrite Hl).
  split.
  - intros m Hrel Hres.
    rewrite (onMessageReceived_dispatch rt _ m w u cb Hrel Hres Hcb Hne).
    rewrite Hbase.
    destruct (sendWebhookWithAuth_tenant rt cb (message_body m) u
                (snd (storeMessage m w)))
      as (auth & w1 & w2 & Hh & Hs & Hp & Hp2).
    destruct (sendWebhookWithAuth_legacy rt legacy (message_body m) w2)
      as (w3 & Hs3 & Hp3).
    exists auth, w1, w3. split; [exact Hh |]. split.
    + rewrite (bind_Ok _ _ _ _ _ Hs). exact Hs3.
    + split; [exact Hp |]. rewrite Hp3, Hp2, <- app_assoc. reflexivity.
  - intros session status Hres.
    rewrite (sendSessionWebhook_dispatch rt _ session status w u cb Hres Hcb Hne).
    rewrite Hbase.
    destruct (sendWebhookWithAuth_tenant rt (cb +:+ "/session")
                (session_body session status) u w)
      as (auth & w1 & w2 & Hh & Hs & Hp & Hp2).
    destruct (sendWebhookWithAuth_legacy rt (legacy +:+ "/session")
                (session_body session status) w2)
      as (w3 & Hs3 & Hp3).
    exists auth, w1, w3. split; [exact Hh |]. split.
    + rewrite (bind_Ok _ _ _ _ _ Hs). exact Hs3.
    + split; [exact Hp |]. rewrite Hp3, Hp2, <- app_assoc. reflexivity.
Qed.

Lemma both_destinations_receive_witness :
  let u := configured alice (Some "https://x/hook") (Some "basic")
             (Some "user") (Some "pass") None None None in
  let rt := runtime_answering (NetworkError "ECONNREFUSED") in
  let w := world_of [u] 1000 in
  posts (snd (onMessageReceived rt (Some "https://g/hook") (hello "alice") w))
  = [webhook_post "https://x/hook" (message_body (hello "alice"))
       [("Authorization", "Basic dXNlcjpwYXNz")];
     webhook_post "https://g/hook" (message_body (hello "alice")) []].
Proof.
  cbv zeta.
  set (u := configured alice (Some "https://x/hook") (Some "basic")
              (Some "user") (Some "pass") None None None).
  set (rt := runtime_answering (NetworkError "ECONNREFUSED")).
  assert ("https://g/hook" <> "")%string as Hl by discriminate.
  assert ("https://x/hook" <> "")%string as Hne by discriminate.
  assert (relevant (hello "alice")) as Hrel.
  { split; [reflexivity |]. intros jid [= <-]. reflexivity. }
  destruct (proj1 (both_destinations_receive rt "https://g/hook" "https://x/hook"
                     u (world_of [u] 1000) Hl eq_refl Hne)
              (hello "alice") Hrel eq_refl)
    as (auth & w1 & w' & Hh & Hon & _ & Hp).
  vm_compute in Hh. injection Hh as <- <-.
  rewrite Hon. exact Hp.
Defined.

Lemma ignored_test (m : MessageReceived) :
  fromMe (key m) = true
  \/ (exists jid, remoteJid (key m) = Some jid
                  /\ includes jid "broadcast" = true) ->
  fromMe (key m)
  || match remoteJid (key m) with
     | Some jid => includes jid "broadcast"
     | None => false
     end = true.
Proof.
  intros [->|(jid & -> & ->)]; [reflexivity | apply orb_true_r].
Qed.

(** C9.  A message that is self-sent, or whose recipient identifier contains
    ["broadcast"], is recorded in the message store and nothing more: the
    handler returns without issuing any POST, whatever the tenant and the
    legacy webhook are. *)
Theorem ignored_messages_send_nothing (rt : Runtime) (base : option string)
    (m : MessageReceived) (w : World) :
  fromMe (key m) = true
  \/ (exists jid, remoteJid (key m) = Some jid
                  /\ includes jid "broadcast" = true) ->
  onMessageReceived rt base m w = (Ok tt, snd (storeMessage m w))
  /\ posts (snd (onMessageReceived rt base m w)) = posts w.
Proof.
  intros H.
  assert (onMessageReceived rt base m w = (Ok tt, snd (storeMessage m w)))
    as Hon.
  { unfold onMessageReceived.
    rewrite (bind_Ok _ _ w (snd (storeMessage m w)) tt eq_refl).
    by rewrite (ignored_test m H). }
  split; [exact Hon | by rewrite Hon].
Qed.

Lemma ignored_messages_send_nothing_witness :
  let u := configured alice (Some "https://x/hook") (Some "none")
             None None None None None in
  let m := {| sessionId := "alice";
              key := {| fromMe := false;
                        remoteJid := Some "status@broadcast"%string;
                        key_id := JStr "3A50" |};
              message := None |} in
  posts (snd (onMessageReceived
                (runtime_answering (Response 200 (JStr "ok")))
                (Some "https://g/hook") m (world_of [u] 1000))) = [].
Proof.
  cbv zeta.
  apply (ignored_messages_send_nothing
           (runtime_answering (Response 200 (JStr "ok")))
           (Some "https://g/hook")
           {| sessionId := "alice";
              key := {| fromMe := false;
                        remoteJid := Some "status@broadcast"%string;
                        key_id := JStr "3A50" |};
              message := None |}).
  right. exists "status@broadcast"%string. split; reflexivity.
Defined.

(** Without a tenant callback neither handler sends anything, whatever the
    legacy webhook URL is. *)
Lemma no_callback_no_posts (rt : Runtime) (base : option string)
    (w : World) (u : option User) :
  ~ present (u ≫= callback_url) ->
  (forall m, resolves w (sessionId m) u ->
             posts (snd (onMessageReceived rt base m w)) = posts w)
  /\ (forall session status,
        resolves w session u ->
        sendSessionWebhook rt base session status w = (Ok tt, w)).
Proof.
  intros Hcb. apply truthy_str_absent in Hcb. split.
  - intros m Hres. unfold onMessageReceived.
    rewrite (bind_Ok _ _ w (snd (storeMessage m w)) tt eq_refl).
    destruct (_ || _); [reflexivity |].
    rewrite (bind_Ok _ _ _ _ _
               (getUserForSession_resolves (sessionId m)
                  (snd (storeMessage m w)) u Hres)).
    cbv zeta. by rewrite Hcb.
  - intros session status Hres. unfold sendSessionWebhook.
    rewrite (bind_Ok _ _ _ _ _ (getUserForSession_resolves session w u Hres)).
    cbv zeta. by rewrite Hcb.
Qed.

(** C1, evaluated on the code.  The legacy webhook is configured.  A message
    and a session event for tenant [alice], who has no callback URL, and a
    message for a session that belongs to no tenant, each end with no POST
    issued: the legacy webhook is not reached. *)
Theorem legacy_webhook_not_reached_without_callback :
  let u := configured alice None (Some "none") None None None None None in
  let rt := runtime_answering (Response 200 (JStr "ok")) in
  let legacy := Some "https://g/hook"%string in
  let w := world_of [u] 1000 in
  posts (snd (onMessageReceived rt legacy (hello "alice") w)) = []
  /\ posts (snd (sendSessionWebhook rt legacy "alice" connected w)) = []
  /\ posts (snd (onMessageReceived rt legacy (hello "bob") w)) = []
  /\ posts (snd (sendSessionWebhook rt legacy "bob" disconnected w)) = [].
Proof. cbv zeta. repeat split; reflexivity. Qed.

(** ** Reconfiguration *)

(** What [PUT /webhook-auth] does to the table of a tenant. *)
Lemma put_webhook_auth_run (rt : Runtime) (user : User)
    (payload : WebhookAuthPayload) (w : World) :
  is_admin user <> 1 ->
  put_webhook_auth rt user payload w
  = (Ok tt,
     with_db w
       (update_where_id (id user) (webhook_auth_updates payload)
          (Some (default None (p_webhook_auth_token payload))) (db w))).
Proof.
  intros Hadm. apply Z.eqb_neq in Hadm.
  unfold put_webhook_auth. rewrite Hadm.
  destruct payload as [ty un pw url tok fmt].
  destruct un, pw, url, tok as [[tok|]|], fmt; reflexivity.
Qed.

Lemma updated_row (payload : WebhookAuthPayload) (r : User) :
  let r' := apply_updates (webhook_auth_updates payload)
              (Some (default None (p_webhook_auth_token payload))) r in
  webhook_auth_token_expiration r' = None
  /\ webhook_auth_token r' = default None (p_webhook_auth_token payload)
  /\ webhook_auth_type r'
     = Some (auth_type_string (p_webhook_auth_type payload)).
Proof.
  destruct payload as [ty un pw url tok fmt].
  destruct un, pw, url, tok, fmt; repeat split; reflexivity.
Qed.

(** C4 (as the code has it).  Every accepted update of a tenant's webhook
    authentication sets the cached expiration of the tenant's row to null and
    replaces the token column by the token the request supplies, or by null
    when the request supplies none; rows of other tenants are untouched.  So
    the token cached before the update is gone unless the request itself
    carries it; an update from ["oauth"] to ["bearer"] that supplies no token
    leaves both cache columns null. *)
Theorem put_webhook_auth_resets_cache (rt : Runtime) (user : User)
    (payload : WebhookAuthPayload) (w : World) :
  is_admin user <> 1 ->
  exists w',
    put_webhook_auth rt user payload w = (Ok tt, w')
    /\ Forall2
         (fun a b =>
            if id a =? id user
            then webhook_auth_token_expiration b = None
                 /\ webhook_auth_token b
                    = default None (p_webhook_auth_token payload)
                 /\ webhook_auth_type b
                    = Some (auth_type_string (p_webhook_auth_type payload))
            else b = a)
         (db w) (db w').
Proof.
  intros Hadm. eexists. split; [by apply put_webhook_auth_run |].
  simpl. unfold update_where_id.
  induction (db w) as [|r rows IH]; simpl; constructor; [| exact IH].
  destruct (id r =? id user); [apply updated_row | reflexivity].
Qed.

Lemma put_webhook_auth_resets_cache_witness :
  let u := configured alice (Some "https://x/hook") (Some "oauth")
             (Some "id") (Some "secret") (Some "https://x/token")
             (Some "cached") (Some 5000000) in
  let payload :=
    {| p_webhook_auth_type := AuthBearer;
       p_webhook_auth_username := None; p_webhook_auth_password := None;
       p_webhook_auth_token_url := None; p_webhook_auth_token := None;
       p_webhook_oauth_format := None |} in
  exists w',
    put_webhook_auth (runtime_answering (NetworkError "down")) u payload
      (world_of [u] 1000) = (Ok tt, w')
    /\ Forall2
         (fun a b =>
            if id a =? id u
            then webhook_auth_token_expiration b = None
                 /\ webhook_auth_token b = None
                 /\ webhook_auth_type b = Some "bearer"%string
            else b = a)
         [u] (db w').
Proof.
  cbv zeta.
  apply (put_webhook_auth_resets_cache
           (runtime_answering (NetworkError "down"))
           (configured alice (Some "https://x/hook") (Some "oauth")
              (Some "id") (Some "secret") (Some "https://x/token")
              (Some "cached") (Some 5000000))
           {| p_webhook_auth_type := AuthBearer;
              p_webhook_auth_username := None; p_webhook_auth_password := None;
              p_webhook_auth_token_url := None; p_webhook_auth_token := None;
              p_webhook_oauth_format := None |}
           (world_of [_] 1000)).
  vm_compute. discriminate.
Defined.

(** C4 fails as stated: an update from ["oauth"] to ["bearer"] that carries
    the static token leaves the token column holding that token, not null;
    and when the request carries the very token that was cached, the cached
    token survives the update. *)
Lemma put_webhook_auth_keeps_supplied_token :
  let u := configured alice (Some "https://x/hook") (Some "oauth")
             (Some "id") (Some "secret") (Some "https://x/token")
             (Some "cached") (Some 5000000) in
  let payload (tok : string) :=
    {| p_webhook_auth_type := AuthBearer;
       p_webhook_auth_username := None; p_webhook_auth_password := None;
       p_webhook_auth_token_url := None;
       p_webhook_auth_token := Some (Some tok);
       p_webhook_oauth_format := None |} in
  let rt := runtime_answering (NetworkError "down") in
  map webhook_auth_token
    (db (snd (put_webhook_auth rt u (payload "static") (world_of [u] 1000))))
  = [Some "static"%string]
  /\ map webhook_auth_token
       (db (snd (put_webhook_auth rt u (payload "cached") (world_of [u] 1000))))
     = [Some "cached"%string].
Proof. cbv zeta. split; reflexivity. Qed.

(** * Further properties *)

(** ** The QR code store, continued *)

(** X1.  After [removeQR], [getQR] for that session returns nothing, at
    whatever time it is called, and has nothing left to evict; removing undoes
    a store (the map is as if the challenge had never been stored and then
    removed), and removing twice is removing once. *)
Theorem getQR_after_removeQR (m : gmap string QRStore.entry)
    (s c : string) (t0 now : Z) :
  QRStore.getQR now s (QRStore.removeQR s m) = (None, QRStore.removeQR s m)
  /\ QRStore.removeQR s (QRStore.storeQR t0 s c m) = QRStore.removeQR s m
  /\ QRStore.getQR now s (QRStore.removeQR s (QRStore.storeQR t0 s c m))
     = (None, QRStore.removeQR s m)
  /\ QRStore.removeQR s (QRStore.removeQR s m) = QRStore.removeQR s m.
Proof.
  assert (QRStore.removeQR s (QRStore.storeQR t0 s c m) = QRStore.removeQR s m)
    as Hrs by (unfold QRStore.removeQR, QRStore.storeQR; apply delete_insert_eq).
  assert (forall m', QRStore.getQR now s (QRStore.removeQR s m')
                     = (None, QRStore.removeQR s m')) as Hg.
  { intros m'. unfold QRStore.getQR, QRStore.removeQR.
    by rewrite lookup_delete_eq. }
  repeat split.
  - apply Hg.
  - exact Hrs.
  - rewrite Hrs. apply Hg.
  - unfold QRStore.removeQR. apply map_eq. intros k.
    destruct (decide (s = k)) as [->|Hne].
    + by rewrite !lookup_delete_eq.
    + by rewrite !lookup_delete_ne.
Qed.

(** X2.  Storing a second challenge for a session replaces the first one
    together with its timestamp: the store is the same as if only the second
    had been stored, so a read within the TTL of the second store returns the
    second challenge even when the first one is long expired. *)
Theorem storeQR_overwrites (m : gmap string QRStore.entry)
    (s c1 c2 : string) (t1 t2 now : Z) :
  QRStore.storeQR t2 s c2 (QRStore.storeQR t1 s c1 m) = QRStore.storeQR t2 s c2 m
  /\ (now - t2 <= QRStore.TTL ->
      fst (QRStore.getQR now s
             (QRStore.storeQR t2 s c2 (QRStore.storeQR t1 s c1 m)))
      = Some c2).
Proof.
  assert (QRStore.storeQR t2 s c2 (QRStore.storeQR t1 s c1 m)
          = QRStore.storeQR t2 s c2 m) as Heq
      by (unfold QRStore.storeQR; apply insert_insert_eq).
  split; [exact Heq |].
  intros Hle. rewrite Heq, getQR_storeQR.
  destruct (Z.gtb_spec (now - t2) QRStore.TTL); [lia | reflexivity].
Qed.

Lemma storeQR_overwrites_witness :
  fst (QRStore.getQR 900000 "alice"
         (QRStore.storeQR 800000 "alice" "2@second"
            (QRStore.storeQR 1000 "alice" "2@first" ∅)))
  = Some "2@second"%string.
Proof.
  apply (proj2 (storeQR_overwrites ∅ "alice" "2@first" "2@second"
                  1000 800000 900000)).
  vm_compute. discriminate.
Defined.

(** X3.  Sessions do not interfere: storing, reading (with its lazy eviction)
    or removing the entry of one session changes neither the entry of another
    session nor what a read of that other session returns. *)
Theorem QRStore_sessions_independent (m : gmap string QRStore.entry)
    (s s' c : string) (t0 now now' : Z) :
  s <> s' ->
  QRStore.storeQR t0 s c m !! s' = m !! s'
  /\ snd (QRStore.getQR now s m) !! s' = m !! s'
  /\ QRStore.removeQR s m !! s' = m !! s'
  /\ fst (QRStore.getQR now' s' (QRStore.storeQR t0 s c m))
     = fst (QRStore.getQR now' s' m)
  /\ fst (QRStore.getQR now' s' (snd (QRStore.getQR now s m)))
     = fst (QRStore.getQR now' s' m)
  /\ fst (QRStore.getQR now' s' (QRStore.removeQR s m))
     = fst (QRStore.getQR now' s' m).
Proof.
  intros Hne.
  assert (QRStore.storeQR t0 s c m !! s' = m !! s') as H1
      by (unfold QRStore.storeQR; by rewrite lookup_insert_ne).
  assert (snd (QRStore.getQR now s m) !! s' = m !! s') as H2.
  { unfold QRStore.getQR. destruct (m !! s) as [e|]; [| reflexivity].
    destruct (_ >? _); simpl; [by rewrite lookup_delete_ne | reflexivity]. }
  assert (QRStore.removeQR s m !! s' = m !! s') as H3
      by (unfold QRStore.removeQR; by rewrite lookup_delete_ne).
  repeat split; try assumption.
  - unfold QRStore.getQR. rewrite H1.
    destruct (m !! s') as [e|]; [destruct (_ >? _) |]; reflexivity.
  - set (m2 := snd (QRStore.getQR now s m)) in *.
    unfold QRStore.getQR. rewrite H2.
    destruct (m !! s') as [e|]; [destruct (_ >? _) |]; reflexivity.
  - unfold QRStore.getQR. rewrite H3.
    destruct (m !! s') as [e|]; [destruct (_ >? _) |]; reflexivity.
Qed.

Lemma QRStore_sessions_independent_witness :
  fst (QRStore.getQR 2000 "bob"
         (QRStore.storeQR 1500 "alice" "2@a"
            (QRStore.storeQR 1000 "bob" "2@b" ∅)))
  = fst (QRStore.getQR 2000 "bob" (QRStore.storeQR 1000 "bob" "2@b" ∅)).
Proof.
  apply (QRStore_sessions_independent
           (QRStore.storeQR 1000 "bob" "2@b" ∅) "alice" "bob" "2@a"
           1500 0 2000).
  discriminate.
Defined.

Lemma clearExpired_lookup (m : gmap string QRStore.entry) (s : string)
    (now : Z) :
  QRStore.clearExpired now m !! s
  = match m !! s with
    | Some e => if now - QRStore.timestamp e >? QRStore.TTL then None else Some e
    | None => None
    end.
Proof.
  unfold QRStore.clearExpired.
  destruct (m !! s) as [e|] eqn:Hm.
  - destruct (now - QRStore.timestamp e >? QRStore.TTL) eqn:Hx.
    + apply map_lookup_filter_None. right. intros e' He'.
      assert (e' = e) as -> by congruence. simpl. by rewrite Hx.
    + apply map_lookup_filter_Some. split; [exact Hm |]. simpl. by rewrite Hx.
  - apply map_lookup_filter_None. left. exact Hm.
Qed.

(** X4.  [clearExpired] removes exactly the entries older than the TTL and
    keeps every other entry as it is; and a sweep made at an earlier (or the
    same) time never changes what a later [getQR] returns, so reads do not
    depend on the sweep. *)
Theorem clearExpired_keeps_fresh (m : gmap string QRStore.entry)
    (s : string) (swept now : Z) :
  (forall e,
     QRStore.clearExpired swept m !! s = Some e
     <-> m !! s = Some e /\ swept - QRStore.timestamp e <= QRStore.TTL)
  /\ (swept <= now ->
      fst (QRStore.getQR now s (QRStore.clearExpired swept m))
      = fst (QRStore.getQR now s m)).
Proof.
  split.
  - intros e. rewrite clearExpired_lookup.
    destruct (m !! s) as [e0|]; [| split; [discriminate | intros [? _]; discriminate]].
    destruct (Z.gtb_spec (swept - QRStore.timestamp e0) QRStore.TTL).
    + split; [discriminate |]. intros [[= ->] ?]. lia.
    + split; [intros [= ->]; auto | intros [[= ->] _]; reflexivity].
  - intros Hle. unfold QRStore.getQR. rewrite clearExpired_lookup.
    destruct (m !! s) as [e|]; [| reflexivity].
    destruct (Z.gtb_spec (swept - QRStore.timestamp e) QRStore.TTL) as [Hs|Hs].
    + destruct (Z.gtb_spec (now - QRStore.timestamp e) QRStore.TTL);
        [reflexivity | lia].
    + destruct (_ >? _); reflexivity.
Qed.

Lemma clearExpired_keeps_fresh_witness :
  fst (QRStore.getQR 500000 "alice"
         (QRStore.clearExpired 400000
            (QRStore.storeQR 300000 "alice" "2@a"
               (QRStore.storeQR 1000 "bob" "2@b" ∅))))
  = fst (QRStore.getQR 500000 "alice"
           (QRStore.storeQR 300000 "alice" "2@a"
              (QRStore.storeQR 1000 "bob" "2@b" ∅))).
Proof.
  apply (proj2 (clearExpired_keeps_fresh
                  (QRStore.storeQR 300000 "alice" "2@a"
                     (QRStore.storeQR 1000 "bob" "2@b" ∅))
                  "alice" 400000 500000)).
  lia.
Defined.

(** X5.  What [getQR] returns is the challenge of an entry of the map that is
    at most the TTL old; when it returns nothing, no entry for the session is
    left in the map.  A second read at the same instant returns the same and
    changes nothing more. *)
Theorem getQR_sound (m : gmap string QRStore.entry) (s : string) (now : Z) :
  (forall c,
     fst (QRStore.getQR now s m) = Some c ->
     exists e, m !! s = Some e /\ QRStore.qr e = c
               /\ now - QRStore.timestamp e <= QRStore.TTL
               /\ snd (QRStore.getQR now s m) = m)
  /\ (fst (QRStore.getQR now s m) = None ->
      snd (QRStore.getQR now s m) !! s = None)
  /\ QRStore.getQR now s (snd (QRStore.getQR now s m))
     = QRStore.getQR now s m.
Proof.
  unfold QRStore.getQR.
  destruct (m !! s) as [e|] eqn:Hm.
  - destruct (Z.gtb_spec (now - QRStore.timestamp e) QRStore.TTL) as [Hx|Hx];
      simpl.
    + split; [discriminate |]. split; [intros _; apply lookup_delete_eq |].
      by rewrite lookup_delete_eq.
    + split; [intros c [= <-]; eauto |]. split; [discriminate |].
      rewrite Hm. destruct (Z.gtb_spec (now - QRStore.timestamp e) QRStore.TTL);
        [lia | reflexivity].
  - simpl. split; [discriminate |]. split; [auto |]. by rewrite Hm.
Qed.

(** ** The users table *)

Lemma find_map_same_test (p : User -> bool) (f : User -> User)
    (rows : list User) :
  (forall r, p (f r) = p r) ->
  find p (map f rows) = f <$> find p rows.
Proof.
  intros Hp. induction rows as [|r rows IH]; simpl; [reflexivity |].
  rewrite Hp. destruct (p r); [reflexivity | exact IH].
Qed.

Lemma apply_updates_identity (c : AuthConfig) (tok : option (option string))
    (r : User) :
  same_identity r (apply_updates c tok r).
Proof. repeat split. Qed.

Lemma update_where_id_identity (userId : Z) (c : AuthConfig)
    (tok : option (option string)) (rows : list User) :
  Forall2 same_identity rows (update_where_id userId c tok rows).
Proof.
  induction rows as [|r rows IH]; simpl; constructor; [| exact IH].
  destruct (id r =? userId); [apply apply_updates_identity | repeat split].
Qed.

(** X6.  [updateUserWebhookAuth] never touches the identity of a row: for
    every configuration and user id, whether the statement runs or the driver
    rejects a value, the table afterwards has the same rows in the same order
    with the same id, username, password hash, admin flag, session name,
    callback URL and creation time.  So a session name resolves, before and
    after, to rows that agree on all of these. *)
Theorem updateUserWebhookAuth_keeps_identity (rt : Runtime) (userId : Z)
    (c : AuthConfig) (w : World) (name : string) :
  let w' := snd (updateUserWebhookAuth rt userId c w) in
  Forall2 same_identity (db w) (db w')
  /\ option_Forall2 same_identity
       (find (fun r => (username r =? name)%string) (db w))
       (find (fun r => (username r =? name)%string) (db w')).
Proof.
  cbv zeta.
  destruct (updateUserWebhookAuth_world rt userId c w) as [->|[tok ->]].
  - split.
    + apply Forall2_same. repeat split.
    + destruct (find _ _); constructor. repeat split.
  - simpl. split; [apply update_where_id_identity |].
    unfold update_where_id. rewrite find_map_same_test.
    + destruct (find _ (db w)) as [r|]; simpl; constructor.
      destruct (id r =? userId); [apply apply_updates_identity | repeat split].
    + intros r. destruct (id r =? userId); reflexivity.
Qed.

(** X7.  An update for an id that no row has, or an update that names no
    column, leaves the table as it was. *)
Theorem updateUserWebhookAuth_nothing_to_do (rt : Runtime) (userId : Z)
    (c : AuthConfig) (w : World) :
  (forall r, In r (db w) -> id r <> userId) \/ c = empty_config ->
  db (snd (updateUserWebhookAuth rt userId c w)) = db w.
Proof.
  intros [Hid| ->]; [| reflexivity].
  destruct (updateUserWebhookAuth_world rt userId c w) as [->|[tok ->]];
    [reflexivity |].
  simpl. unfold update_where_id.
  induction (db w) as [|r rows IH]; simpl; [reflexivity |].
  rewrite IH by (intros r' Hr'; apply Hid; by right).
  assert (id r <> userId) as Hne by (apply Hid; by left).
  apply Z.eqb_neq in Hne. by rewrite Hne.
Qed.

Lemma updateUserWebhookAuth_nothing_to_do_witness :
  db (snd (updateUserWebhookAuth (runtime_answering (NetworkError "down")) 7
             (set_cfg_token empty_config (JStr "t")) (world_of [alice] 1000)))
  = [alice].
Proof.
  apply (updateUserWebhookAuth_nothing_to_do
           (runtime_answering (NetworkError "down")) 7
           (set_cfg_token empty_config (JStr "t")) (world_of [alice] 1000)).
  left. intros r [<-|[]]. vm_compute. discriminate.
Defined.

Lemma find_filter_other (p q : User -> bool) (rows : list User) :
  (forall r, p r = true -> q r = true) ->
  find p (List.filter q rows) = find p rows.
Proof.
  intros Hpq. induction rows as [|r rows IH]; simpl; [reflexivity |].
  destruct (q r) eqn:Hq; simpl.
  - destruct (p r); [reflexivity | exact IH].
  - destruct (p r) eqn:Hp; [| exact IH].
    rewrite (Hpq r Hp) in Hq. discriminate.
Qed.

Lemma find_filter_none (p q : User -> bool) (rows : list User) :
  (forall r, p r = true -> q r = false) ->
  find p (List.filter q rows) = None.
Proof.
  intros Hpq. induction rows as [|r rows IH]; simpl; [reflexivity |].
  destruct (q r) eqn:Hq; simpl; [| exact IH].
  destruct (p r) eqn:Hp; [| exact IH].
  rewrite (Hpq r Hp) in Hq. discriminate.
Qed.

(** X8.  After [deleteUser] the id is gone: [getUserById] finds nothing for
    it, finds for every other id what it found before, and a session name
    resolves as before unless the row it resolved to was the deleted one. *)
Theorem deleteUser_lookup (userId other : Z) (name : string) (w : World) :
  let w' := snd (deleteUser userId w) in
  fst (getUserById userId w') = Ok None
  /\ (other <> userId ->
      fst (getUserById other w') = fst (getUserById other w))
  /\ (forall u, resolves w name (Some u) -> id u <> userId ->
                resolves w' name (Some u)).
Proof.
  cbv zeta. unfold getUserById, deleteUser, set_db, resolves. simpl.
  split; [| split].
  - f_equal. apply find_filter_none. intros r Hr. by rewrite Hr.
  - intros Hne. f_equal. apply find_filter_other.
    intros r Hr. apply Z.eqb_eq in Hr. subst other.
    apply negb_true_iff. by apply Z.eqb_neq.
  - intros u Hu Hne.
    induction (db w) as [|r rows IH]; simpl in *; [discriminate |].
    destruct (username r =? name)%string eqn:Hn.
    + injection Hu as ->. apply Z.eqb_neq in Hne. rewrite Hne. simpl.
      by rewrite Hn.
    + destruct (negb (id r =? userId)); simpl; [rewrite Hn |]; by apply IH.
Qed.

Lemma deleteUser_lookup_witness :
  let w := world_of [alice; bob] 1000 in
  let w' := snd (deleteUser 2 w) in
  db w' = [alice]
  /\ fst (getUserById 2 w') = Ok None
  /\ fst (getUserById 1 w') = Ok (Some alice)
  /\ resolves w' "alice" (Some alice)
  /\ resolves w' "bob" None.
Proof.
  cbv zeta.
  destruct (deleteUser_lookup 2 1 "alice" (world_of [alice; bob] 1000))
    as (Hgone & Hother & Hres).
  split; [reflexivity |]. split; [exact Hgone |]. split.
  - rewrite Hother; [reflexivity | discriminate].
  - split; [| reflexivity].
    apply (Hres alice); [reflexivity | vm_compute; discriminate].
Defined.

(** ** The token cache, continued *)

(** X9.  A tenant of type ["oauth"] that lacks the username, the password or
    the token URL gets no [Authorization] header and causes no request and no
    write, even when a token with a far-away expiration sits in its cache. *)
Theorem oauth_unconfigured_gives_no_headers (rt : Runtime) (u : User)
    (w : World) :
  webhook_auth_type u = Some "oauth"%string ->
  ~ oauth_configured u ->
  getValidOAuthToken rt u w = (Ok JNull, w)
  /\ getWebhookAuthHeaders rt (Some u) w = (Ok [], w).
Proof.
  intros Ht Hc.
  pose proof (getValidOAuthToken_unconfigured rt u w Hc) as Hg.
  split; [exact Hg |].
  rewrite (getWebhookAuthHeaders_oauth rt u w Ht).
  by rewrite (bind_Ok _ _ _ _ _ Hg).
Qed.

Lemma oauth_unconfigured_gives_no_headers_witness :
  let u := configured alice (Some "https://x/hook") (Some "oauth")
             (Some "id") None (Some "https://x/token")
             (Some "cached") (Some 9000000) in
  let w := world_of [u] 1000 in
  getWebhookAuthHeaders
    (runtime_answering
       (Response 200 (JObj [("access_token", JStr "fresh")]))) (Some u) w
  = (Ok [], w).
Proof.
  cbv zeta.
  apply (oauth_unconfigured_gives_no_headers
           (runtime_answering
              (Response 200 (JObj [("access_token", JStr "fresh")])))
           (configured alice (Some "https://x/hook") (Some "oauth")
              (Some "id") None (Some "https://x/token")
              (Some "cached") (Some 9000000))
           _ eq_refl).
  intros (_ & (s & Hs & _) & _). discriminate Hs.
Defined.

(** X10.  A token that was just fetched is served from the cache afterwards:
    once a renewal has succeeded, the tenant's row as the next event reads it
    carries the token and its expiration, and resolving again for that row at
    any instant up to five minutes before the expiration returns the same
    token without a request and without a write. *)
Theorem renewed_token_is_cached (rt : Runtime) (u : User) (w w1 : World)
    (resp : jsval) (tok name : string) (n : Z) :
  oauth_configured u ->
  ~ cache_fresh u (clock w) ->
  fetch_for rt u w = (Ok resp, w1) ->
  prop resp "access_token" = JStr tok ->
  lifetime resp n ->
  Z.abs (clock w1 + n * 1000) <= MAX_TIME ->
  resolves w name (Some u) ->
  let w' := snd (getValidOAuthToken rt u w) in
  let u' := with_cache u (Some tok) (Some (clock w1 + n * 1000)) in
  resolves w' name (Some u')
  /\ forall rt2 w2,
       clock w2 <= clock w1 + n * 1000 - 300000 ->
       getValidOAuthToken rt2 u' w2 = (Ok (JStr tok), w2).
Proof.
  intros Hc Hstale Hf Ha Hl Hrange Hres w' u'.
  assert (w' = with_db w1 (persist (id u) tok (clock w1 + n * 1000) (db w1)))
    as Hw'.
  { subst w'. rewrite (getValidOAuthToken_stale rt u w Hc Hstale).
    unfold try_catch.
    by rewrite (renewal_success rt u w w1 resp tok n Hf Ha Hl Hrange). }
  pose proof (fetch_for_world rt u w) as Hw. rewrite Hf in Hw. simpl in Hw.
  split.
  - rewrite Hw'. subst u'. unfold resolves, persist in *. simpl.
    rewrite Hw. simpl. rewrite find_map_same_test.
    + rewrite Hres. simpl. by rewrite Z.eqb_refl.
    + intros r. destruct (id r =? id u); reflexivity.
  - intros rt2 w2 Hle.
    assert (tok <> ""%string) as Hne.
    { pose proof (fetchOAuthToken_token_truthy _ _ _ _ _ _ _ _ Hf) as Htr.
      rewrite Ha in Htr. simpl in Htr.
      by apply negb_true_iff, String.eqb_neq in Htr. }
    rewrite getValidOAuthToken_fresh; [reflexivity | exact Hc |].
    split; [exists tok; auto | eauto].
Qed.

Lemma renewed_token_is_cached_witness :
  let u := configured alice (Some "https://x/hook") (Some "oauth")
             (Some "id") (Some "secret") (Some "https://x/token") None None in
  let rt := runtime_answering
              (Response 200 (JObj [("access_token", JStr "fresh");
                                   ("expires_in", JNum 3600)]%string)) in
  let w' := snd (getValidOAuthToken rt u (world_of [u] 1000)) in
  resolves w' "alice" (Some (with_cache u (Some "fresh"%string) (Some 3601040))).
Proof.
  cbv zeta.
  set (u := configured alice (Some "https://x/hook") (Some "oauth")
              (Some "id") (Some "secret") (Some "https://x/token") None None).
  set (rt := runtime_answering
               (Response 200 (JObj [("access_token", JStr "fresh");
                                    ("expires_in", JNum 3600)]%string))).
  assert (oauth_configured u) as Hc.
  { repeat split; eexists; (split; [reflexivity | discriminate]). }
  assert (~ cache_fresh u (clock (world_of [u] 1000))) as Hstale.
  { intros ((s & Hs & _) & _). discriminate Hs. }
  apply (renewed_token_is_cached rt u (world_of [u] 1000)
           (after_post (world_of [u] 1000) (token_request_of u) 40)
           (JObj [("access_token", JStr "fresh"); ("expires_in", JNum 3600)])
           "fresh" "alice" 3600 Hc Hstale eq_refl eq_refl).
  - left. split; [reflexivity | discriminate].
  - vm_compute. discriminate.
  - reflexivity.
Defined.

(** X11.  After any accepted [PUT /webhook-auth], the tenant's row never
    counts as a cache hit, whatever the request supplied as token: its
    expiration is null.  So the next resolution for that row, when the OAuth
    prerequisites are present, sends a token request. *)
Theorem reconfiguration_forces_renewal (rt rt2 : Runtime) (user : User)
    (payload : WebhookAuthPayload) (w w2 : World) (r : User) :
  is_admin user <> 1 ->
  In r (db (snd (put_webhook_auth rt user payload w))) ->
  id r = id user ->
  (forall now, ~ cache_fresh r now)
  /\ (oauth_configured r ->
      posts (snd (getValidOAuthToken rt2 r w2))
      = posts w2 ++ [token_request_of r]).
Proof.
  intros Hadm Hin Hid.
  assert (webhook_auth_token_expiration r = None) as Hexp.
  { rewrite (put_webhook_auth_run rt user payload w Hadm) in Hin.
    simpl in Hin. unfold update_where_id in Hin.
    apply in_map_iff in Hin as (r0 & <- & _).
    destruct (id r0 =? id user) eqn:Hr0.
    - apply updated_row.
    - apply Z.eqb_neq in Hr0. contradiction. }
  assert (forall now, ~ cache_fresh r now) as Hstale.
  { intros now (_ & e & He & _). congruence. }
  split; [exact Hstale |].
  intros Hc.
  rewrite (getValidOAuthToken_stale rt2 r w2 Hc (Hstale _)), try_catch_world.
  apply renewal_posts.
Qed.

Lemma reconfiguration_forces_renewal_witness :
  let u := configured alice (Some "https://x/hook") (Some "oauth")
             (Some "id") (Some "secret") (Some "https://x/token")
             (Some "cached") (Some 9000000) in
  ~ cache_fresh (with_cache u (Some "cached"%string) None) 1000.
Proof.
  cbv zeta.
  refine (proj1 (reconfiguration_forces_renewal
           (runtime_answering (NetworkError "down"))
           (runtime_answering (NetworkError "down"))
           (configured alice (Some "https://x/hook") (Some "oauth")
              (Some "id") (Some "secret") (Some "https://x/token")
              (Some "cached") (Some 9000000))
           {| p_webhook_auth_type := AuthOAuth;
              p_webhook_auth_username := None; p_webhook_auth_password := None;
              p_webhook_auth_token_url := None;
              p_webhook_auth_token := Some (Some "cached"%string);
              p_webhook_oauth_format := None |}
           (world_of [configured alice (Some "https://x/hook") (Some "oauth")
                        (Some "id") (Some "secret") (Some "https://x/token")
                        (Some "cached") (Some 9000000)] 1000)
           (world_of [] 0) _ _ _ _) 1000).
  - vm_compute. discriminate.
  - left. reflexivity.
  - reflexivity.
Defined.

(** X12.  [fetchOAuthToken] sends exactly one request, to the token URL, and
    changes nothing else, whatever the answer; and what it throws is never the
    HTTP client's own error: a failed request surfaces as the "failed to fetch
    OAuth token" error, carrying the response body when that is truthy and
    the client's message otherwise. *)
Theorem fetchOAuthToken_one_request (rt : Runtime)
    (username password tokenUrl format : string) (w : World) :
  let r := token_request username password tokenUrl format in
  let out := fetchOAuthToken rt username password tokenUrl format w in
  req_url r = tokenUrl
  /\ posts (snd out) = posts w ++ [r]
  /\ db (snd out) = db w
  /\ (forall e, fst out = Throw e -> isAxiosError e = false)
  /\ (forall m dt, net rt (posts w) r = (NetworkError m, dt) ->
        fst out = Throw (Error (FailedToFetchOAuthToken (inr m))))
  /\ (forall st d dt,
        net rt (posts w) r = (Response st d, dt) ->
        ~ (200 <= st < 300) ->
        truthy d = true ->
        fst out = Throw (Error (FailedToFetchOAuthToken (inl d)))).
Proof.
  cbv zeta.
  split; [unfold token_request; destruct (_ =? _)%string; reflexivity |].
  rewrite fetchOAuthToken_world.
  split; [reflexivity |]. split; [reflexivity |].
  unfold fetchOAuthToken, try_catch, bind, axios_post, read.
  destruct (net rt _ _) as [[m|st d] dt]; simpl.
  - split; [intros e [= <-]; reflexivity |].
    split; [intros m' dt' [= <- _]; reflexivity | intros; discriminate].
  - destruct (Z.leb_spec 200 st), (Z.ltb_spec st 300); simpl.
    2-4: split; [intros e [= <-]; by destruct (truthy d) |];
         (split; [intros; discriminate |]);
         intros st' d' dt' [= <- <- _] _ ->; reflexivity.
    split.
    + unfold ret, throw. destruct (nullish d); [intros e [= <-]; reflexivity |].
      repeat match goal with
             | |- context [if ?b then _ else _] => destruct b
             end; intros e; simpl; intros [= <-] || discriminate; reflexivity.
    + split; [intros; discriminate |].
      intros st' d' dt' [= <- _ _] Hst. lia.
Qed.

(** ** The dispatcher, continued *)

Lemma append_empty (s : string) : (s +:+ "")%string = s.
Proof.
  induction s as [|c s IH]; [reflexivity |].
  change (String c (s +:+ "") = String c s). by rewrite IH.
Qed.

Lemma only_cache_written_refl (w : World) : only_cache_written w w.
Proof.
  split; [apply Forall2_same; reflexivity | split; reflexivity].
Qed.

Lemma same_but_cache_chain (l1 l2 l3 : list User) :
  Forall2 same_but_cache l1 l2 -> Forall2 same_but_cache l2 l3 ->
  Forall2 same_but_cache l1 l3.
Proof.
  intros H12. revert l3.
  induction H12 as [|a b l1 l2 Hab _ IH]; intros l3 H23;
    inversion H23; subst; constructor; [| by apply IH].
  unfold same_but_cache in *. congruence.
Qed.

Lemma only_cache_written_trans (w1 w2 w3 : World) :
  only_cache_written w1 w2 -> only_cache_written w2 w3 ->
  only_cache_written w1 w3.
Proof.
  intros (Hd & Hq & Hm) (Hd' & Hq' & Hm').
  split; [by eapply same_but_cache_chain | split; congruence].
Qed.

Lemma getValidOAuthToken_only_cache (rt : Runtime) (u : User) (w : World) :
  only_cache_written w (snd (getValidOAuthToken rt u w)).
Proof.
  destruct (getValidOAuthToken_world rt u w) as [->| ->];
    [apply only_cache_written_refl |].
  destruct (renewal_world rt u w) as [->|(c & tok & Hc & ->)].
  - split; [| split; reflexivity]. simpl. apply Forall2_same. reflexivity.
  - split; [| split; reflexivity]. simpl. by apply update_where_id_frame.
Qed.

(** The world after the resolver: untouched, or as the token acquisition
    leaves it. *)
Lemma getWebhookAuthHeaders_world (rt : Runtime) (user : option User)
    (w : World) :
  snd (getWebhookAuthHeaders rt user w) = w
  \/ exists u, user = Some u
               /\ snd (getWebhookAuthHeaders rt user w)
                  = snd (getValidOAuthToken rt u w).
Proof.
  destruct user as [u|]; [| left; reflexivity].
  unfold getWebhookAuthHeaders.
  repeat match goal with
         | |- context [if ?b then _ else _] =>
             lazymatch b with
             | truthy _ => fail
             | _ => destruct b
             end;
             try (left; reflexivity)
         end.
  right. exists u. split; [reflexivity |].
  unfold bind.
  destruct (getValidOAuthToken rt u w) as [[t|e] w2]; [| reflexivity].
  destruct (truthy t); reflexivity.
Qed.

Lemma getWebhookAuthHeaders_only_cache (rt : Runtime) (user : option User)
    (w : World) :
  only_cache_written w (snd (getWebhookAuthHeaders rt user w)).
Proof.
  destruct (getWebhookAuthHeaders_world rt user w) as [->|(u & _ & ->)];
    [apply only_cache_written_refl | apply getValidOAuthToken_only_cache].
Qed.

(** One delivery, to anyone: it returns normally, sends its POST last, and
    writes at most the cache. *)
Lemma sendWebhookWithAuth_run (rt : Runtime) (url : string) (body : jsval)
    (user : option User) (w : World) :
  exists auth w1 w2,
    getWebhookAuthHeaders rt user w = (Ok auth, w1)
    /\ sendWebhookWithAuth rt url body user w = (Ok tt, w2)
    /\ posts w2 = posts w1 ++ [webhook_post url body auth]
    /\ only_cache_written w w2.
Proof.
  destruct (getWebhookAuthHeaders_returns rt user w) as (auth & w1 & Hh).
  assert (auth = [] \/ exists v, auth = [("Authorization", v)]%string) as Hs.
  { destruct user as [u|]; [apply (getWebhookAuthHeaders_shape rt u w w1 auth Hh) |].
    injection Hh as <- _. by left. }
  pose proof (getWebhookAuthHeaders_only_cache rt user w) as Hoc.
  rewrite Hh in Hoc. simpl in Hoc.
  exists auth, w1. eexists. split; [exact Hh |]. split.
  - apply (sendWebhookWithAuth_posts rt url body user w w1 auth Hh).
  - split.
    + simpl. rewrite (Object_assign_auth auth Hs). reflexivity.
    + destruct Hoc as (Hd & Hq & Hm). split; [exact Hd | split; assumption].
Qed.

(** X13.  Whatever the tenant's configuration and whatever the network does,
    the resolver yields either no header or a single [Authorization] header
    whose value starts with ["Basic "] or ["Bearer "]; an auth type other
    than ["basic"], ["bearer"] and ["oauth"] yields no header and no effect.
    So every webhook request keeps [Content-Type: application/json]. *)
Theorem auth_headers_shape (rt : Runtime) (user : option User) (w w1 : World)
    (h : list (string * string)) :
  getWebhookAuthHeaders rt user w = (Ok h, w1) ->
  (h = []
   \/ exists v, h = [("Authorization", "Basic " +:+ v)]%string
                \/ h = [("Authorization", "Bearer " +:+ v)]%string)
  /\ (forall u t,
        user = Some u -> webhook_auth_type u = Some t ->
        t <> "basic"%string -> t <> "bearer"%string -> t <> "oauth"%string ->
        h = [] /\ w1 = w)
  /\ Object_assign [("Content-Type", "application/json")]%string h
     = ("Content-Type", "application/json")%string :: h.
Proof.
  intros Hh.
  assert (h = []
          \/ exists v, h = [("Authorization", "Basic " +:+ v)]%string
                       \/ h = [("Authorization", "Bearer " +:+ v)]%string)
    as Hshape.
  { destruct user as [u|]; [| injection Hh as <- _; by left].
    revert Hh. unfold getWebhookAuthHeaders.
    repeat match goal with
           | |- context [if ?b then _ else _] =>
               lazymatch b with
               | truthy _ => fail
               | _ => destruct b
               end;
               try (intros [= <- <-]; eauto; fail)
           end.
    unfold bind.
    destruct (getValidOAuthToken rt u w) as [[t|e] w2]; [| discriminate].
    destruct (truthy t); intros [= <- <-]; eauto. }
  split; [exact Hshape |]. split.
  - intros u t -> Ht Hb Hbe Ho. revert Hh.
    unfold getWebhookAuthHeaders. rewrite Ht. simpl.
    apply String.eqb_neq in Hb, Hbe, Ho. rewrite Hb, Hbe, Ho.
    destruct (_ || _); intros [= <- <-]; auto.
  - destruct Hshape as [->|[v [->| ->]]]; reflexivity.
Qed.

Lemma auth_headers_shape_witness :
  let u := configured alice (Some "https://x/hook") (Some "digest")
             (Some "user") (Some "pass") None (Some "tok") None in
  Object_assign [("Content-Type", "application/json")]%string []
  = [("Content-Type", "application/json")]%string.
Proof.
  cbv zeta.
  apply (auth_headers_shape (runtime_answering (NetworkError "down"))
           (Some (configured alice (Some "https://x/hook") (Some "digest")
                    (Some "user") (Some "pass") None (Some "tok") None))
           (world_of [] 0) (world_of [] 0) []).
  reflexivity.
Defined.

(** The legacy delivery that closes both handlers. *)
Lemma legacy_delivery (rt : Runtime) (base : option string)
    (suffix : string) (body : jsval) (w : World) :
  exists w',
    (if truthy_str base
     then sendWebhookWithAuth rt (default "" base +:+ suffix)%string body None
     else ret tt) w = (Ok tt, w')
    /\ posts w' = posts w ++ legacy_posts base suffix body
    /\ only_cache_written w w'.
Proof.
  unfold legacy_posts. destruct (truthy_str base).
  - destruct (sendWebhookWithAuth_run rt (default "" base +:+ suffix)%string
                body None w) as (auth & w1 & w2 & Hh & Hs & Hp & Hoc).
    injection Hh as <- <-. eauto.
  - exists w. split; [reflexivity |]. split; [by rewrite app_nil_r |].
    apply only_cache_written_refl.
Qed.

(** A message that is dispatched: the tenant delivery, then the legacy one. *)
Lemma onMessageReceived_delivers (rt : Runtime) (base : option string)
    (m : MessageReceived) (w : World) (u : User) (cb : string) :
  relevant m ->
  resolves w (sessionId m) (Some u) ->
  callback_url u = Some cb ->
  cb <> ""%string ->
  exists auth w1 w',
    getWebhookAuthHeaders rt (Some u) (snd (storeMessage m w)) = (Ok auth, w1)
    /\ onMessageReceived rt base m w = (Ok tt, w')
    /\ (posts w1 = posts w \/ posts w1 = posts w ++ [token_request_of u])
    /\ posts w'
       = posts w1 ++ webhook_post cb (message_body m) auth
                     :: legacy_posts base "" (message_body m)
    /\ only_cache_written (snd (storeMessage m w)) w'.
Proof.
  intros Hrel Hres Hcb Hne.
  rewrite (onMessageReceived_dispatch rt base m w u cb Hrel Hres Hcb Hne).
  destruct (sendWebhookWithAuth_run rt cb (message_body m) (Some u)
              (snd (storeMessage m w)))
    as (auth & w1 & w2 & Hh & Hs & Hp & Hoc).
  destruct (getWebhookAuthHeaders_shape rt u _ w1 auth Hh) as [_ Hp1].
  destruct (legacy_delivery rt base "" (message_body m) w2)
    as (w3 & Hl & Hp3 & Hoc3).
  rewrite append_empty in Hl.
  exists auth, w1, w3. split; [exact Hh |]. split.
  - rewrite (bind_Ok _ _ _ _ _ Hs). exact Hl.
  - split; [exact Hp1 |]. split.
    + rewrite Hp3, Hp, <- app_assoc. reflexivity.
    + by eapply only_cache_written_trans.
Qed.

Lemma sendSessionWebhook_delivers (rt : Runtime) (base : option string)
    (session : string) (status : SessionStatus) (w : World) (u : User)
    (cb : string) :
  resolves w session (Some u) ->
  callback_url u = Some cb ->
  cb <> ""%string ->
  exists auth w1 w',
    getWebhookAuthHeaders rt (Some u) w = (Ok auth, w1)
    /\ sendSessionWebhook rt base session status w = (Ok tt, w')
    /\ (posts w1 = posts w \/ posts w1 = posts w ++ [token_request_of u])
    /\ posts w'
       = posts w1 ++ webhook_post (cb +:+ "/session")
                       (session_body session status) auth
                     :: legacy_posts base "/session"
                          (session_body session status)
    /\ only_cache_written w w'.
Proof.
  intros Hres Hcb Hne.
  rewrite (sendSessionWebhook_dispatch rt base session status w u cb
             Hres Hcb Hne).
  destruct (sendWebhookWithAuth_run rt (cb +:+ "/session")
              (session_body session status) (Some u) w)
    as (auth & w1 & w2 & Hh & Hs & Hp & Hoc).
  destruct (getWebhookAuthHeaders_shape rt u _ w1 auth Hh) as [_ Hp1].
  destruct (legacy_delivery rt base "/session"
              (session_body session status) w2)
    as (w3 & Hl & Hp3 & Hoc3).
  exists auth, w1, w3. split; [exact Hh |]. split.
  - rewrite (bind_Ok _ _ _ _ _ Hs). exact Hl.
  - split; [exact Hp1 |]. split.
    + rewrite Hp3, Hp, <- app_assoc. reflexivity.
    + by eapply only_cache_written_trans.
Qed.

(** The three ways a message event can go. *)
Lemma onMessageReceived_cases (m : MessageReceived) (w : World) :
  (fromMe (key m) = true
   \/ exists jid, remoteJid (key m) = Some jid
                  /\ includes jid "broadcast" = true)
  \/ (relevant m
      /\ exists u, resolves w (sessionId m) u /\ ~ present (u ≫= callback_url))
  \/ (relevant m
      /\ exists u cb, resolves w (sessionId m) (Some u)
                      /\ callback_url u = Some cb /\ cb <> ""%string).
Proof.
  destruct (fromMe (key m)) eqn:Hf; [left; by left |].
  destruct (remoteJid (key m)) as [jid|] eqn:Hj.
  - destruct (includes jid "broadcast") eqn:Hi; [left; right; eauto |].
    right.
    assert (relevant m) as Hrel
        by (split; [exact Hf | intros j; rewrite Hj; intros [= <-]; exact Hi]).
    destruct (find (fun r => (username r =? sessionId m)%string) (db w))
      as [u|] eqn:Hu.
    + destruct (callback_url u) as [cb|] eqn:Hcb.
      * destruct (decide (cb = ""%string)) as [->|Hne].
        -- left. split; [exact Hrel |]. exists (Some u). split; [exact Hu |].
           simpl. rewrite Hcb. intros (s & [= <-] & Hs). by apply Hs.
        -- right. split; [exact Hrel |]. exists u, cb. auto.
      * left. split; [exact Hrel |]. exists (Some u). split; [exact Hu |].
        simpl. rewrite Hcb. intros (s & Hs & _). discriminate Hs.
    + left. split; [exact Hrel |]. exists None. split; [exact Hu |].
      intros (s & Hs & _). discriminate Hs.
  - right.
    assert (relevant m) as Hrel
        by (split; [exact Hf | intros j; rewrite Hj; discriminate]).
    destruct (find (fun r => (username r =? sessionId m)%string) (db w))
      as [u|] eqn:Hu.
    + destruct (callback_url u) as [cb|] eqn:Hcb.
      * destruct (decide (cb = ""%string)) as [->|Hne].
        -- left. split; [exact Hrel |]. exists (Some u). split; [exact Hu |].
           simpl. rewrite Hcb. intros (s & [= <-] & Hs). by apply Hs.
        -- right. split; [exact Hrel |]. exists u, cb. auto.
      * left. split; [exact Hrel |]. exists (Some u). split; [exact Hu |].
        simpl. rewrite Hcb. intros (s & Hs & _). discriminate Hs.
    + left. split; [exact Hrel |]. exists None. split; [exact Hu |].
      intros (s & Hs & _). discriminate Hs.
Qed.

Lemma sendSessionWebhook_cases (session : string) (w : World) :
  (exists u, resolves w session u /\ ~ present (u ≫= callback_url))
  \/ (exists u cb, resolves w session (Some u)
                   /\ callback_url u = Some cb /\ cb <> ""%string).
Proof.
  destruct (find (fun r => (username r =? session)%string) (db w))
    as [u|] eqn:Hu.
  - destruct (callback_url u) as [cb|] eqn:Hcb.
    + destruct (decide (cb = ""%string)) as [->|Hne].
      * left. exists (Some u). split; [exact Hu |].
        simpl. rewrite Hcb. intros (s & [= <-] & Hs). by apply Hs.
      * right. exists u, cb. auto.
    + left. exists (Some u). split; [exact Hu |].
      simpl. rewrite Hcb. intros (s & Hs & _). discriminate Hs.
  - left. exists None. split; [exact Hu |].
    intros (s & Hs & _). discriminate Hs.
Qed.

Lemma onMessageReceived_no_callback (rt : Runtime) (base : option string)
    (m : MessageReceived) (w : World) (u : option User) :
  relevant m ->
  resolves w (sessionId m) u ->
  ~ present (u ≫= callback_url) ->
  onMessageReceived rt base m w = (Ok tt, snd (storeMessage m w)).
Proof.
  intros Hrel Hres Hcb. apply truthy_str_absent in Hcb.
  unfold onMessageReceived.
  rewrite (bind_Ok _ _ w (snd (storeMessage m w)) tt eq_refl).
  rewrite (relevant_test m Hrel).
  rewrite (bind_Ok _ _ _ _ _
             (getUserForSession_resolves (sessionId m)
                (snd (storeMessage m w)) u Hres)).
  cbv zeta. by rewrite Hcb.
Qed.

(** X14.  Failures of delivery are contained.  [sendWebhookWithAuth] returns
    normally for every URL, body and tenant, whatever happens inside its
    [try]: a network error or a non-2xx answer on the webhook POST, a failed
    or malformed token fetch, an expiration that is no valid date, a token
    value the database driver refuses to bind.  Consequently the message
    handler and the three session handlers return normally whenever the two
    calls they make outside that [try] do, namely
    [messageStore.storeMessage] and the lookup of the tenant, which the
    embedding takes as succeeding. *)
Theorem delivery_failures_are_contained (rt : Runtime) (base : option string)
    (m : MessageReceived) (session : string) (status : SessionStatus)
    (w : World) :
  (forall url body user,
     exists w', sendWebhookWithAuth rt url body user w = (Ok tt, w'))
  /\ (exists w', onMessageReceived rt base m w = (Ok tt, w'))
  /\ (exists w', sendSessionWebhook rt base session status w = (Ok tt, w'))
  /\ (exists w', onConnected rt base session w = (Ok tt, w'))
  /\ (exists w', onConnecting rt base session w = (Ok tt, w'))
  /\ (exists w', onDisconnected rt base session w = (Ok tt, w')).
Proof.
  assert (forall s st w0,
            exists w', sendSessionWebhook rt base s st w0 = (Ok tt, w')) as Hs.
  { intros s st w0.
    destruct (sendSessionWebhook_cases s w0)
      as [(u & Hres & Hcb)|(u & cb & Hres & Hcb & Hne)].
    - exists w0. by apply (proj2 (no_callback_no_posts rt base w0 u Hcb)).
    - destruct (sendSessionWebhook_delivers rt base s st w0 u cb Hres Hcb Hne)
        as (? & ? & w' & _ & H & _). eauto. }
  split.
  { intros url body user.
    destruct (sendWebhookWithAuth_run rt url body user w)
      as (? & ? & w' & _ & H & _). eauto. }
  split; [| split; [apply Hs | split; [| split; apply Hs]]].
  - destruct (onMessageReceived_cases m w)
      as [Hign|[(Hrel & u & Hres & Hcb)|(Hrel & u & cb & Hres & Hcb & Hne)]].
    + eexists. unfold onMessageReceived.
      rewrite (bind_Ok _ _ w (snd (storeMessage m w)) tt eq_refl).
      by rewrite (ignored_test m Hign).
    + eexists. by apply (onMessageReceived_no_callback rt base m w u).
    + destruct (onMessageReceived_delivers rt base m w u cb Hrel Hres Hcb Hne)
        as (? & ? & w' & _ & H & _). eauto.
  - unfold onConnected.
    rewrite (bind_Ok _ _ w (snd (set_qrCodes (QRStore.removeQR session) w)) tt
               eq_refl).
    apply Hs.
Qed.

(** X15.  When no legacy URL is set (or it is empty), a dispatched event
    produces exactly one webhook POST, to the tenant: the message body to the
    callback URL, or the session body to the callback URL followed by
    ["/session"], with the tenant's resolved headers; before it at most the
    tenant's token request is sent. *)
Theorem tenant_only_delivery (rt : Runtime) (base : option string)
    (u : User) (cb : string) (w : World) :
  ~ present base ->
  callback_url u = Some cb ->
  cb <> ""%string ->
  (forall m,
     relevant m ->
     resolves w (sessionId m) (Some u) ->
     exists auth w1 w',
       getWebhookAuthHeaders rt (Some u) (snd (storeMessage m w))
       = (Ok auth, w1)
       /\ onMessageReceived rt base m w = (Ok tt, w')
       /\ (posts w1 = posts w \/ posts w1 = posts w ++ [token_request_of u])
       /\ posts w' = posts w1 ++ [webhook_post cb (message_body m) auth])
  /\ (forall session status,
        resolves w session (Some u) ->
        exists auth w1 w',
          getWebhookAuthHeaders rt (Some u) w = (Ok auth, w1)
          /\ sendSessionWebhook rt base session status w = (Ok tt, w')
          /\ (posts w1 = posts w \/ posts w1 = posts w ++ [token_request_of u])
          /\ posts w'
             = posts w1 ++ [webhook_post (cb +:+ "/session")
                              (session_body session status) auth]).
Proof.
  intros Hbase Hcb Hne. apply truthy_str_absent in Hbase.
  split.
  - intros m Hrel Hres.
    destruct (onMessageReceived_delivers rt base m w u cb Hrel Hres Hcb Hne)
      as (auth & w1 & w' & Hh & Hon & Hp1 & Hp & _).
    unfold legacy_posts in Hp. rewrite Hbase in Hp. eauto 10.
  - intros session status Hres.
    destruct (sendSessionWebhook_delivers rt base session status w u cb
                Hres Hcb Hne)
      as (auth & w1 & w' & Hh & Hon & Hp1 & Hp & _).
    unfold legacy_posts in Hp. rewrite Hbase in Hp. eauto 10.
Qed.

Lemma tenant_only_delivery_witness :
  let u := configured alice (Some "https://x/hook") (Some "bearer")
             None None None (Some "s3cr3t") None in
  let rt := runtime_answering (Response 500 (JStr "boom")) in
  posts (snd (sendSessionWebhook rt None "alice" connecting (world_of [u] 1000)))
  = [webhook_post "https://x/hook/session" (session_body "alice" connecting)
       [("Authorization", "Bearer s3cr3t")]].
Proof.
  cbv zeta.
  set (u := configured alice (Some "https://x/hook") (Some "bearer")
              None None None (Some "s3cr3t") None).
  set (rt := runtime_answering (Response 500 (JStr "boom"))).
  assert (~ present None) as Hb by (intros (s & Hs & _); discriminate Hs).
  assert ("https://x/hook" <> "")%string as Hne by discriminate.
  destruct (proj2 (tenant_only_delivery rt None u "https://x/hook"
                     (world_of [u] 1000) Hb eq_refl Hne)
              "alice"%string connecting eq_refl)
    as (auth & w1 & w' & Hh & Hon & _ & Hp).
  vm_compute in Hh. injection Hh as <- <-.
  rewrite Hon. exact Hp.
Defined.

Lemma first_truthy_shape (l : list (option string)) :
  first_truthy l = JNull
  \/ exists s, s <> ""%string /\ first_truthy l = JStr s.
Proof.
  induction l as [|o l IH]; simpl; [by left |].
  destruct o as [s|]; simpl; [| exact IH].
  destruct (String.eqb_spec s ""); simpl; [exact IH | right; eauto].
Qed.

Lemma first_truthy_skips (l1 l2 : list (option string)) :
  Forall (fun o => ~ present o) l1 ->
  first_truthy (l1 ++ l2) = first_truthy l2.
Proof.
  induction 1 as [|o l1 Ho _ IH]; simpl; [reflexivity |].
  apply truthy_str_absent in Ho. by rewrite Ho.
Qed.

(** X16.  The [message] field of a webhook body is never the empty string:
    it is [null] or a non-empty text.  It is the first non-empty one among
    conversation, extended text, image caption, video caption, document
    caption, contact display name, location comment and live-location
    caption, in this order (empty texts are skipped like missing ones), and
    [null] when the event carries no message content. *)
Theorem message_text_first_nonempty (m : option MessageContent) :
  (message_text m = JNull
   \/ exists s, s <> ""%string /\ message_text m = JStr s)
  /\ (m = None -> message_text m = JNull)
  /\ (forall c before s after,
        m = Some c ->
        [conversation c; extendedTextMessage_text c; imageMessage_caption c;
         videoMessage_caption c; documentMessage_caption c;
         contactMessage_displayName c; locationMessage_comment c;
         liveLocationMessage_caption c] = before ++ Some s :: after ->
        Forall (fun o => ~ present o) before ->
        s <> ""%string ->
        message_text m = JStr s).
Proof.
  split; [| split].
  - destruct m as [c|]; [apply first_truthy_shape | by left].
  - intros ->. reflexivity.
  - intros c before s after -> Hl Hb Hs. unfold message_text. rewrite Hl.
    rewrite (first_truthy_skips _ _ Hb). simpl.
    apply String.eqb_neq in Hs. by rewrite Hs.
Qed.

Lemma message_text_first_nonempty_witness :
  message_text
    (Some {| conversation := Some ""%string;
             extendedTextMessage_text := None;
             imageMessage_caption := Some "a photo"%string;
             videoMessage_caption := Some "a film"%string;
             documentMessage_caption := None;
             contactMessage_displayName := None;
             locationMessage_comment := None;
             liveLocationMessage_caption := None |})
  = JStr "a photo".
Proof.
  set (c := {| conversation := Some ""%string;
               extendedTextMessage_text := None;
               imageMessage_caption := Some "a photo"%string;
               videoMessage_caption := Some "a film"%string;
               documentMessage_caption := None;
               contactMessage_displayName := None;
               locationMessage_comment := None;
               liveLocationMessage_caption := None |}).
  apply (proj2 (proj2 (message_text_first_nonempty (Some c))) c
           [Some ""%string; None] "a photo"%string
           [Some "a film"%string; None; None; None; None] eq_refl eq_refl).
  - repeat constructor; intros (s & Hs & Hne); congruence.
  - discriminate.
Defined.

Lemma dispatch_frame_sessions (rt : Runtime) (base : option string)
    (session : string) (status : SessionStatus) (w : World) :
  Forall2 same_but_cache (db w)
    (db (snd (sendSessionWebhook rt base session status w)))
  /\ qrCodes (snd (sendSessionWebhook rt base session status w)) = qrCodes w
     /\ messageStore (snd (sendSessionWebhook rt base session status w))
        = messageStore w.
Proof.
  destruct (sendSessionWebhook_cases session w)
    as [(u & Hres & Hcb)|(u & cb & Hres & Hcb & Hne)].
  - rewrite (proj2 (no_callback_no_posts rt base w u Hcb) session status Hres).
    apply only_cache_written_refl.
  - destruct (sendSessionWebhook_delivers rt base session status w u cb
                Hres Hcb Hne)
      as (? & ? & w' & _ & -> & _ & _ & Hoc).
    exact Hoc.
Qed.

(** X17.  Dispatching an event changes nothing in the table besides the two
    cache columns (no row is added, removed or reordered), and nothing in the
    QR store; a message event records exactly that message in the message
    store, a session event records nothing there. *)
Theorem dispatch_frame (rt : Runtime) (base : option string)
    (m : MessageReceived) (session : string) (status : SessionStatus)
    (w : World) :
  (Forall2 same_but_cache (db w) (db (snd (onMessageReceived rt base m w)))
   /\ qrCodes (snd (onMessageReceived rt base m w)) = qrCodes w
   /\ messageStore (snd (onMessageReceived rt base m w))
      = messageStore w ++ [m])
  /\ only_cache_written w (snd (sendSessionWebhook rt base session status w)).
Proof.
  split.
  - destruct (onMessageReceived_cases m w)
      as [Hign|[(Hrel & u & Hres & Hcb)|(Hrel & u & cb & Hres & Hcb & Hne)]].
    + assert (onMessageReceived rt base m w = (Ok tt, snd (storeMessage m w)))
        as ->.
      { unfold onMessageReceived.
        rewrite (bind_Ok _ _ w (snd (storeMessage m w)) tt eq_refl).
        by rewrite (ignored_test m Hign). }
      simpl. split; [apply Forall2_same; reflexivity | split; reflexivity].
    + rewrite (onMessageReceived_no_callback rt base m w u Hrel Hres Hcb).
      simpl. split; [apply Forall2_same; reflexivity | split; reflexivity].
    + destruct (onMessageReceived_delivers rt base m w u cb Hrel Hres Hcb Hne)
        as (? & ? & w' & _ & -> & _ & _ & (Hd & Hq & Hm)).
      simpl in *. auto.
  - apply dispatch_frame_sessions.
Qed.

(** X18.  Tenants are isolated: every request a message event causes goes to
    the callback URL of the tenant the session resolves to, to that tenant's
    own token endpoint, or to the legacy URL; a session event likewise, with
    ["/session"] appended to the two webhook URLs.  No event reaches the
    callback or the token endpoint of another tenant. *)
Theorem dispatch_destinations (rt : Runtime) (base : option string)
    (m : MessageReceived) (session : string) (status : SessionStatus)
    (w : World) :
  (exists new,
     posts (snd (onMessageReceived rt base m w)) = posts w ++ new
     /\ Forall
          (fun r =>
             (exists u,
                resolves w (sessionId m) (Some u)
                /\ (Some (req_url r) = callback_url u
                    \/ r = token_request_of u))
             \/ Some (req_url r) = base)
          new)
  /\ (exists new,
        posts (snd (sendSessionWebhook rt base session status w))
        = posts w ++ new
        /\ Forall
             (fun r =>
                (exists u cb,
                   resolves w session (Some u)
                   /\ callback_url u = Some cb
                   /\ (req_url r = (cb +:+ "/session")%string
                       \/ r = token_request_of u))
                \/ (exists b, base = Some b
                              /\ req_url r = (b +:+ "/session")%string))
             new).
Proof.
  split.
  - destruct (onMessageReceived_cases m w)
      as [Hign|[(Hrel & u & Hres & Hcb)|(Hrel & u & cb & Hres & Hcb & Hne)]].
    + exists []. split; [| constructor].
      assert (onMessageReceived rt base m w = (Ok tt, snd (storeMessage m w)))
        as ->.
      { unfold onMessageReceived.
        rewrite (bind_Ok _ _ w (snd (storeMessage m w)) tt eq_refl).
        by rewrite (ignored_test m Hign). }
      simpl. by rewrite app_nil_r.
    + exists []. split; [| constructor].
      rewrite (onMessageReceived_no_callback rt base m w u Hrel Hres Hcb).
      simpl. by rewrite app_nil_r.
    + destruct (onMessageReceived_delivers rt base m w u cb Hrel Hres Hcb Hne)
        as (auth & w1 & w' & _ & -> & Hp1 & Hp & _).
      simpl.
      assert (Forall
                (fun r =>
                   (exists u0,
                      resolves w (sessionId m) (Some u0)
                      /\ (Some (req_url r) = callback_url u0
                          \/ r = token_request_of u0))
                   \/ Some (req_url r) = base)
                (webhook_post cb (message_body m) auth
                 :: legacy_posts base "" (message_body m))) as Hall.
      { constructor; [left; exists u; split; [exact Hres | left; by rewrite Hcb] |].
        unfold legacy_posts. destruct (truthy_str base) eqn:Hb; constructor;
          [| constructor].
        right. simpl. rewrite append_empty.
        destruct base; [reflexivity | discriminate]. }
      destruct Hp1 as [Hp1|Hp1]; rewrite Hp, Hp1.
      * eexists. split; [reflexivity | exact Hall].
      * eexists. rewrite <- app_assoc. split; [reflexivity |].
        constructor; [| exact Hall]. left. exists u. auto.
  - destruct (sendSessionWebhook_cases session w)
      as [(u & Hres & Hcb)|(u & cb & Hres & Hcb & Hne)].
    + exists []. split; [| constructor].
      rewrite (proj2 (no_callback_no_posts rt base w u Hcb) session status Hres).
      simpl. by rewrite app_nil_r.
    + destruct (sendSessionWebhook_delivers rt base session status w u cb
                  Hres Hcb Hne)
        as (auth & w1 & w' & _ & -> & Hp1 & Hp & _).
      simpl.
      assert (Forall
                (fun r =>
                   (exists u0 cb0,
                      resolves w session (Some u0)
                      /\ callback_url u0 = Some cb0
                      /\ (req_url r = (cb0 +:+ "/session")%string
                          \/ r = token_request_of u0))
                   \/ (exists b, base = Some b
                                 /\ req_url r = (b +:+ "/session")%string))
                (webhook_post (cb +:+ "/session")
                   (session_body session status) auth
                 :: legacy_posts base "/session"
                      (session_body session status))) as Hall.
      { constructor; [left; exists u, cb; auto |].
        unfold legacy_posts. destruct (truthy_str base) eqn:Hb; constructor;
          [| constructor].
        right. destruct base as [b|]; [| discriminate]. exists b. auto. }
      destruct Hp1 as [Hp1|Hp1]; rewrite Hp, Hp1.
      * eexists. split; [reflexivity | exact Hall].
      * eexists. rewrite <- app_assoc. split; [reflexivity |].
        constructor; [| exact Hall]. left. exists u, cb. auto.
Qed.

(** ** The dashboard and the session routes *)

Lemma find_set_callback (userId : Z) (cb : option string) (name : string)
    (rows : list User) :
  find (fun r => (username r =? name)%string)
    (map (fun u => if id u =? userId then set_callback_url u cb else u) rows)
  = (fun u => if id u =? userId then set_callback_url u cb else u)
      <$> find (fun r => (username r =? name)%string) rows.
Proof.
  apply find_map_same_test. intros r. destruct (id r =? userId); reflexivity.
Qed.

(** X19.  A callback URL set through [PUT /callback] is where the tenant's
    next message goes: the update leaves every other column of the row as it
    was, the session resolves to the row with the new URL, and the next
    dispatched message is POSTed to that URL with the headers resolved for
    the tenant (followed by the legacy delivery, if a legacy URL is set). *)
Theorem callback_update_takes_effect (rt : Runtime) (base : option string)
    (user u : User) (cb : string) (m : MessageReceived) (w : World) :
  is_admin user <> 1 ->
  id u = id user ->
  cb <> ""%string ->
  relevant m ->
  resolves w (sessionId m) (Some u) ->
  let w1 := snd (put_callback user (Some cb) w) in
  let u' := set_callback_url u (Some cb) in
  put_callback user (Some cb) w = (Ok tt, w1)
  /\ resolves w1 (sessionId m) (Some u')
  /\ exists auth w2 w',
       getWebhookAuthHeaders rt (Some u') (snd (storeMessage m w1))
       = (Ok auth, w2)
       /\ onMessageReceived rt base m w1 = (Ok tt, w')
       /\ posts w'
          = posts w2 ++ webhook_post cb (message_body m) auth
                        :: legacy_posts base "" (message_body m).
Proof.
  intros Hadm Hid Hne Hrel Hres w1 u'.
  assert (put_callback user (Some cb) w = (Ok tt, w1)) as Hput.
  { subst w1. unfold put_callback. apply Z.eqb_neq in Hadm.
    by rewrite Hadm. }
  assert (resolves w1 (sessionId m) (Some u')) as Hres1.
  { subst w1 u'. unfold put_callback. apply Z.eqb_neq in Hadm. rewrite Hadm.
    unfold resolves in *. simpl. rewrite find_set_callback, Hres. simpl.
    by rewrite Hid, Z.eqb_refl. }
  split; [exact Hput |]. split; [exact Hres1 |].
  destruct (onMessageReceived_delivers rt base m w1 u' cb Hrel Hres1 eq_refl Hne)
    as (auth & w2 & w' & Hh & Hon & _ & Hp & _).
  eauto 10.
Qed.

Lemma callback_update_takes_effect_witness :
  let u := configured alice None (Some "none") None None None None None in
  let rt := runtime_answering (Response 200 (JStr "ok")) in
  posts (snd (onMessageReceived rt None (hello "alice")
                (snd (put_callback u (Some "https://new/hook"%string)
                        (world_of [u] 1000)))))
  = [webhook_post "https://new/hook" (message_body (hello "alice")) []].
Proof.
  cbv zeta.
  set (u := configured alice None (Some "none") None None None None None).
  set (rt := runtime_answering (Response 200 (JStr "ok"))).
  assert (is_admin u <> 1) as Hadm by (vm_compute; discriminate).
  assert ("https://new/hook" <> "")%string as Hne by discriminate.
  assert (relevant (hello "alice")) as Hrel.
  { split; [reflexivity |]. intros jid [= <-]. reflexivity. }
  destruct (callback_update_takes_effect rt None u u "https://new/hook"
              (hello "alice") (world_of [u] 1000) Hadm eq_refl Hne Hrel eq_refl)
    as (_ & _ & auth & w2 & w' & Hh & Hon & Hp).
  vm_compute in Hh. injection Hh as <- <-.
  rewrite Hon. exact Hp.
Defined.

Lemma qrStore_getQR_missing (s : string) (w : World) :
  qrCodes w !! s = None -> qrStore_getQR s w = (Ok None, w).
Proof.
  intros H. unfold qrStore_getQR, QRStore.getQR. rewrite H.
  destruct w. reflexivity.
Qed.

(** X20.  Once [onConnected] has run for a session, webhook included, the
    session has no challenge left, whatever the time and whatever was stored:
    the entries of the other sessions are as before, a read of the store
    gives nothing, and a poll of [GET /:session/qr] by the owner or by the
    admin is answered 400 when the protocol layer reports the session as
    connected and 404 otherwise, never with a QR code. *)
Theorem onConnected_clears_challenge (rt : Runtime) (base : option string)
    (session_user : string -> bool) (toDataURL : string -> Result string)
    (s : string) (user : User) (w : World) :
  let w' := snd (onConnected rt base s w) in
  qrCodes w' = QRStore.removeQR s (qrCodes w)
  /\ qrStore_getQR s w' = (Ok None, w')
  /\ (is_admin user = 1 \/ username user = s ->
      exists msg,
        get_session_qr session_user toDataURL user s w'
        = (Throw (HTTPException (if session_user s then 400 else 404) msg), w')).
Proof.
  cbv zeta.
  assert (qrCodes (snd (onConnected rt base s w))
          = QRStore.removeQR s (qrCodes w)) as Hq.
  { unfold onConnected.
    rewrite (bind_Ok _ _ w (snd (set_qrCodes (QRStore.removeQR s) w)) tt
               eq_refl).
    pose proof (proj2 (dispatch_frame_sessions rt base s connected
                         (snd (set_qrCodes (QRStore.removeQR s) w)))) as [H _].
    exact H. }
  assert (qrStore_getQR s (snd (onConnected rt base s w))
          = (Ok None, snd (onConnected rt base s w))) as Hg.
  { apply qrStore_getQR_missing. rewrite Hq.
    unfold QRStore.removeQR. apply lookup_delete_eq. }
  split; [exact Hq |]. split; [exact Hg |].
  intros Hauth. unfold get_session_qr.
  assert (negb (is_admin user =? 1) && negb (s =? username user)%string = false)
    as ->.
  { destruct Hauth as [-> | <-]; [reflexivity |].
    rewrite String.eqb_refl. apply andb_false_r. }
  rewrite (bind_Ok _ _ _ _ _ Hg). simpl.
  destruct (session_user s); eexists; reflexivity.
Qed.

(** X21.  A user who is not the admin cannot read, and cannot evict, the QR
    challenge of a session other than the one named after them: the poll is
    refused with 403 and the store is left as it was, expired entry or not. *)
Theorem get_session_qr_own_session_only (session_user : string -> bool)
    (toDataURL : string -> Result string) (user : User) (s : string)
    (w : World) :
  is_admin user <> 1 ->
  s <> username user ->
  get_session_qr session_user toDataURL user s w
  = (Throw (HTTPException 403 "You can only access your own session"), w).
Proof.
  intros Hadm Hs. unfold get_session_qr.
  apply Z.eqb_neq in Hadm. apply String.eqb_neq in Hs.
  by rewrite Hadm, Hs.
Qed.

Lemma get_session_qr_own_session_only_witness :
  let w := {| db := [alice]; clock := 999999; posts := [];
              qrCodes := QRStore.storeQR 1000 "bob" "2@qr" ∅;
              messageStore := [] |} in
  get_session_qr (fun _ => false) (fun s => Ok s) alice "bob" w
  = (Throw (HTTPException 403 "You can only access your own session"), w).
Proof.
  cbv zeta.
  apply get_session_qr_own_session_only; [vm_compute |]; discriminate.
Defined.

(** X22.  Store, then poll.  After [qrStore.storeQR] of a non-empty challenge,
    a poll of [GET /:session/qr] by the owner or the admin, made while at most
    the TTL has passed and with the store not touched in between, answers
    with the data URL of exactly that challenge and leaves the world as it
    is; made later, it is answered 400 or 404 and the entry is evicted. *)
Theorem poll_after_store (session_user : string -> bool)
    (toDataURL : string -> Result string) (user : User) (s c : string)
    (w w2 : World) :
  c <> ""%string ->
  is_admin user = 1 \/ username user = s ->
  qrCodes w2 = qrCodes (snd (qrStore_storeQR s c w)) ->
  (clock w2 - clock w <= QRStore.TTL ->
   forall url,
     toDataURL c = Ok url ->
     get_session_qr session_user toDataURL user s w2
     = (Ok (JObj [("data", JObj [("qr", JStr url); ("session", JStr s)])]),
        w2))
  /\ (QRStore.TTL < clock w2 - clock w ->
      exists msg w3,
        get_session_qr session_user toDataURL user s w2
        = (Throw (HTTPException (if session_user s then 400 else 404) msg), w3)
        /\ qrCodes w3 = QRStore.removeQR s (qrCodes w)
        /\ db w3 = db w2 /\ posts w3 = posts w2).
Proof.
  intros Hc Hauth Hq.
  assert (negb (is_admin user =? 1) && negb (s =? username user)%string = false)
    as Hok.
  { destruct Hauth as [-> | <-]; [reflexivity |].
    rewrite String.eqb_refl. apply andb_false_r. }
  assert (qrCodes w2 = QRStore.storeQR (clock w) s c (qrCodes w)) as Hq2
      by (rewrite Hq; reflexivity).
  split.
  - intros Hle url Hurl. unfold get_session_qr. rewrite Hok.
    unfold bind, qrStore_getQR. rewrite Hq2, getQR_storeQR.
    destruct (Z.gtb_spec (clock w2 - clock w) QRStore.TTL); [lia |].
    simpl. apply String.eqb_neq in Hc. rewrite Hc. simpl. rewrite Hurl.
    rewrite <- Hq2. destruct w2. reflexivity.
  - intros Hgt. unfold get_session_qr. rewrite Hok.
    unfold bind, qrStore_getQR. rewrite Hq2, getQR_storeQR.
    destruct (Z.gtb_spec (clock w2 - clock w) QRStore.TTL); [| lia].
    simpl. destruct (session_user s); eexists _, _; (split; [reflexivity |]);
      simpl; auto.
Qed.

Lemma poll_after_store_witness :
  let w := world_of [alice] 1000 in
  let w2 := {| db := [alice]; clock := 200000; posts := [];
               qrCodes := QRStore.storeQR 1000 "alice" "2@qr" ∅;
               messageStore := [] |} in
  get_session_qr (fun _ => false) (fun s => Ok ("data:" +:+ s)) alice "alice" w2
  = (Ok (JObj [("data", JObj [("qr", JStr "data:2@qr");
                              ("session", JStr "alice")])]), w2).
Proof.
  cbv zeta.
  apply (proj1 (poll_after_store (fun _ => false) (fun s => Ok ("data:" +:+ s))
                  alice "alice" "2@qr" (world_of [alice] 1000)
                  {| db := [alice]; clock := 200000; posts := [];
                     qrCodes := QRStore.storeQR 1000 "alice" "2@qr" ∅;
                     messageStore := [] |}
                  ltac:(discriminate) (or_intror eq_refl) eq_refl)).
  - vm_compute. discriminate.
  - reflexivity.
Defined.

(** ** Basic authentication *)

Lemma split_on_no_sep (sep : ascii) (a b : string) :
  (forall c, In c (list_ascii_of_string a) -> c <> sep) ->
  split_on sep (a +:+ String sep b) = a :: split_on sep b.
Proof.
  induction a as [|c a IH]; intros Hno.
  - change (split_on sep (String sep b) = "" :: split_on sep b).
    simpl. by rewrite Ascii.eqb_refl.
  - change (split_on sep (String c (a +:+ String sep b))
            = String c a :: split_on sep b).
    simpl.
    assert (c <> sep) as Hc by (apply Hno; by left).
    apply Ascii.eqb_neq in Hc. rewrite Hc.
    rewrite IH by (intros c' Hc'; apply Hno; by right).
    reflexivity.
Qed.

(** X23.  Only the text between the first and the second colon of the
    decoded credentials is used as the password: credentials
    [name:pass:rest] are treated exactly as [name:pass], whatever [rest] is.
    (A password that contains a colon is therefore never compared in full.) *)
Theorem basicAuth_password_cut_at_colon (ADMIN_USER ADMIN_PASSWORD : string)
    (compareSync : string -> string -> bool)
    (decode : string -> string) (iso_text : Z -> string)
    (h h' b b' name pass rest : string) (w : World) :
  String.prefix "Basic " h = true ->
  String.prefix "Basic " h' = true ->
  nth_error (split_on " " h) 1 = Some b -> b <> ""%string ->
  nth_error (split_on " " h') 1 = Some b' -> b' <> ""%string ->
  (forall c, In c (list_ascii_of_string name) -> c <> ":"%char) ->
  (forall c, In c (list_ascii_of_string pass) -> c <> ":"%char) ->
  decode b = (name +:+ ":" +:+ pass +:+ ":" +:+ rest)%string ->
  decode b' = (name +:+ ":" +:+ pass)%string ->
  basicAuthMiddleware ADMIN_USER ADMIN_PASSWORD compareSync decode iso_text
    (Some h) w
  = basicAuthMiddleware ADMIN_USER ADMIN_PASSWORD compareSync decode iso_text
      (Some h') w.
Proof.
  intros Hp Hp' Hb Hbne Hb' Hbne' Hname Hpass Hd Hd'.
  assert (split_on ":" (name +:+ ":" +:+ pass +:+ ":" +:+ rest)
          = name :: pass :: split_on ":" rest) as Hs.
  { change (name +:+ ":" +:+ pass +:+ ":" +:+ rest)%string
      with (name +:+ String ":" (pass +:+ String ":" rest))%string.
    rewrite (split_on_no_sep _ _ _ Hname), (split_on_no_sep _ _ _ Hpass).
    reflexivity. }
  assert (exists tl, split_on ":" (name +:+ ":" +:+ pass) = name :: pass :: tl)
    as [tl Hs'].
  { change (name +:+ ":" +:+ pass)%string with (name +:+ String ":" pass)%string.
    rewrite (split_on_no_sep _ _ _ Hname).
    assert (forall p, (forall c, In c (list_ascii_of_string p) -> c <> ":"%char) ->
                      split_on ":" p = [p]) as Hone.
    { induction p as [|c p IH]; intros Hno; [reflexivity |]. simpl.
      assert (c <> ":"%char) as Hc by (apply Hno; by left).
      apply Ascii.eqb_neq in Hc. rewrite Hc.
      rewrite IH by (intros c' Hc'; apply Hno; by right). reflexivity. }
    rewrite (Hone pass Hpass). eauto. }
  unfold basicAuthMiddleware.
  change (default ""%string (Some h)) with h.
  change (default ""%string (Some h')) with h'.
  rewrite Hp, Hp', Hb, Hb'.
  change (default ""%string (Some b)) with b.
  change (default ""%string (Some b')) with b'.
  rewrite Hd, Hd', Hs, Hs'.
  assert (forall x, x <> ""%string -> truthy_str (Some x) = true) as Htr.
  { intros x Hx. simpl. apply String.eqb_neq in Hx. by rewrite Hx. }
  assert (h <> ""%string) as Hh by (intros ->; discriminate Hp).
  assert (h' <> ""%string) as Hh' by (intros ->; discriminate Hp').
  rewrite (Htr h Hh), (Htr h' Hh'), (Htr b Hbne), (Htr b' Hbne').
  reflexivity.
Qed.

Lemma basicAuth_password_cut_at_colon_witness :
  let run := basicAuthMiddleware "admin" "root" String.eqb (fun s => s)
               (fun _ => ""%string) in
  run (Some "Basic alice:pa:ss"%string) (world_of [alice] 1000)
  = run (Some "Basic alice:pa"%string) (world_of [alice] 1000).
Proof.
  cbv zeta.
  apply (basicAuth_password_cut_at_colon "admin" "root" String.eqb
           (fun s => s) (fun _ => ""%string)
           "Basic alice:pa:ss" "Basic alice:pa" "alice:pa:ss" "alice:pa"
           "alice" "pa" "ss");
    try reflexivity; try discriminate.
  - intros c Hc. vm_compute in Hc.
    repeat (destruct Hc as [<-|Hc]; [discriminate |]). destruct Hc.
  - intros c Hc. vm_compute in Hc.
    repeat (destruct Hc as [<-|Hc]; [discriminate |]). destruct Hc.
Defined.

(** X24.  Whoever passes the middleware is either the virtual admin (id -1,
    admin flag set, no callback), whom both configuration routes of the
    dashboard refuse with 400 without touching anything, or a row of the
    users table whose username is not the admin's and to which the user's own
    session name resolves: the user a handler sees is the tenant the
    dispatcher will find for that session.  The middleware itself changes
    nothing. *)
Theorem basicAuth_authenticated_user (ADMIN_USER ADMIN_PASSWORD : string)
    (compareSync : string -> string -> bool)
    (decode : string -> string) (iso_text : Z -> string)
    (rt : Runtime) (authHeader : option string) (w w' : World) (u : User) :
  basicAuthMiddleware ADMIN_USER ADMIN_PASSWORD compareSync decode iso_text
    authHeader w = (Ok u, w') ->
  w' = w
  /\ ((id u = -1 /\ is_admin u = 1 /\ username u = ADMIN_USER
       /\ callback_url u = None
       /\ (forall payload,
             put_webhook_auth rt u payload w
             = (Throw (HTTPException 400
                         "Admin users cannot configure webhook authentication"),
                w))
       /\ (forall cb,
             put_callback u cb w
             = (Throw (HTTPException 400
                         "Admin users cannot configure callbacks"), w)))
      \/ (username u <> ADMIN_USER
          /\ In u (db w)
          /\ resolves w (username u) (Some u)
          /\ exists pass, compareSync pass (password u) = true)).
Proof.
  unfold basicAuthMiddleware.
  destruct (_ || _); [discriminate |].
  destruct (negb (truthy_str (nth_error _ 1))); [discriminate |].
  destruct (_ || _); [discriminate |].
  match goal with
  | |- context [(?n =? ADMIN_USER)%string] =>
      destruct (String.eqb_spec n ADMIN_USER) as [Hadm|Hadm]
  end.
  - destruct (negb (_ =? ADMIN_PASSWORD)%string); [discriminate |].
    unfold bind, Date_now, ret. intros [= <- <-].
    split; [reflexivity |]. left. repeat split.
  - unfold bind, getUserByUsername.
    match goal with
    | |- context [find ?p (db w)] => destruct (find p (db w)) as [r|] eqn:Hf
    end; [| discriminate].
    unfold verifyPassword.
    match goal with
    | |- context [compareSync ?pw (password r)] =>
        destruct (compareSync pw (password r)) eqn:Hpw
    end; [| discriminate].
    simpl. unfold ret. intros [= <- <-].
    split; [reflexivity |]. right.
    apply find_some in Hf as Hin. destruct Hin as [Hin Hname].
    apply String.eqb_eq in Hname.
    split; [congruence |]. split; [exact Hin |]. split; [| eauto].
    unfold resolves. rewrite Hname. exact Hf.
Qed.

Lemma basicAuth_authenticated_user_witness :
  let run := basicAuthMiddleware "admin" "root" String.eqb (fun s => s)
               (fun _ => ""%string) in
  resolves (world_of [alice] 1000) (username alice) (Some alice)
  \/ is_admin alice = 1.
Proof.
  cbv zeta.
  destruct (basicAuth_authenticated_user "admin" "root" String.eqb
              (fun s => s) (fun _ => ""%string)
              (runtime_answering (NetworkError "down"))
              (Some "Basic alice:$2b$10$hash"%string)
              (world_of [alice] 1000) (world_of [alice] 1000) alice eq_refl)
    as [_ [(_ & H & _)|(_ & _ & H & _)]]; [right | left]; exact H.
Defined.
